(** * Nano-Navigator service worker: request dispatch and retry

  A shallow embedding of [nano-navigator/service_worker.js]: the context
  menu listener, [runAiTask], [executeCloudAiTask] with its retry loop,
  the message listener for the two parametric actions, and the submit
  handlers of the two parameter modals that the worker injects.

  JavaScript strings are modelled by [string] (one [ascii] per code
  unit); a character outside Latin-1 in a literal appears as the bytes
  of its UTF-8 encoding.  JavaScript numbers are IEEE-754 doubles and are
  modelled by the kernel's primitive [float]. *)

From Stdlib Require Import String Ascii List Bool Arith NArith Lia.
From Stdlib Require Import DecimalString PrimFloat.
From Equations Require Import Equations.
Import ListNotations.

Local Open Scope string_scope.
Local Open Scope list_scope.
Set Warnings "-register-all,-inexact-float".

(* ===================================================================== *)
(** ** JavaScript values and completions *)
(* ===================================================================== *)

Module JS.

(** The values [JSON.parse] can build, plus [undefined], which optional
    chaining produces.  An object lists its properties in insertion order,
    each name once. *)
Inductive Value : Type :=
| Undefined
| Null
| Bool (b : bool)
| Num (x : float)
| Str (s : string)
| Arr (items : list Value)
| Obj (props : list (string * Value)).

(** An [Error] object: only [name] and [message] are ever read. *)
Record Error : Type := mkError { name : string; message : string }.

Definition new_Error (msg : string) : Error := mkError "Error" msg.
Definition new_TypeError (msg : string) : Error := mkError "TypeError" msg.

(** How an expression or call finishes: with a value or by throwing. *)
Inductive Completion (A : Type) : Type :=
| Normal (a : A)
| Throw (e : Error).
Arguments Normal {A} a.
Arguments Throw {A} e.

(** ToBoolean: what [if (v)] and [!v] test. *)
Definition truthy (v : Value) : bool :=
  match v with
  | Undefined | Null => false
  | Bool b => b
  | Num x => negb (PrimFloat.eqb x 0%float || PrimFloat.is_nan x)
  | Str s => negb (String.eqb s "")
  | Arr _ | Obj _ => true
  end.

Definition truthy_string (s : string) : bool := negb (String.eqb s "").

Fixpoint lookup (k : string) (props : list (string * Value)) : Value :=
  match props with
  | [] => Undefined
  | (k', v) :: rest => if String.eqb k k' then v else lookup k rest
  end.

(** Decimal spelling of a non-negative integer, as template literals
    print it. *)
Definition decimal (n : N) : string := NilEmpty.string_of_uint (N.to_uint n).

(** [v.name] for a property name that no prototype defines (here
    "candidates", "content", "parts", "text", ...): reading it from
    [null] or [undefined] throws, from an object it looks the property
    up, from anything else it yields [undefined]. *)
Definition get (v : Value) (name : string) : Completion Value :=
  match v with
  | Undefined =>
      Throw (new_TypeError
               ("Cannot read properties of undefined (reading '" ++ name ++ "')"))
  | Null =>
      Throw (new_TypeError
               ("Cannot read properties of null (reading '" ++ name ++ "')"))
  | Obj props => Normal (lookup name props)
  | _ => Normal Undefined
  end.

(** [v[i]] on a value that is neither [null] nor [undefined]. *)
Definition at_index (v : Value) (i : nat) : Value :=
  match v with
  | Arr items => nth i items Undefined
  | Str s => match String.get i s with
             | Some c => Str (String c EmptyString)
             | None => Undefined
             end
  | Obj props => lookup (decimal (N.of_nat i)) props
  | _ => Undefined
  end.

(** [v?.name]: short-circuits to [undefined] on [null] and [undefined]. *)
Definition opt_get (v : Value) (name : string) : Value :=
  match v with
  | Undefined | Null => Undefined
  | Obj props => lookup name props
  | _ => Undefined
  end.

(** [v?.[i]]. *)
Definition opt_index (v : Value) (i : nat) : Value :=
  match v with
  | Undefined | Null => Undefined
  | _ => at_index v i
  end.

(** *** String.prototype.trim *)

(** White space and line terminators among the Latin-1 code units:
    TAB, LF, VT, FF, CR, SP and NBSP. *)
Definition is_white_space (c : ascii) : bool :=
  let n := nat_of_ascii c in
  ((9 <=? n) && (n <=? 13) || (n =? 32) || (n =? 160))%nat.

Fixpoint trim_start (s : list ascii) : list ascii :=
  match s with
  | c :: rest => if is_white_space c then trim_start rest else s
  | [] => []
  end.

Definition trim_end (s : list ascii) : list ascii := rev (trim_start (rev s)).

Definition trim (s : string) : string :=
  string_of_list_ascii (trim_end (trim_start (list_ascii_of_string s))).

(** *** Regular expressions, as far as the worker uses them

    A pattern is a sequence of single-character atoms, each taken once,
    optionally ([?]) or any number of times ([*], greedy).  There are no
    anchors in this fragment, so the [m] flag changes nothing. *)

Inductive Atom : Type :=
| Lit (c : ascii)          (* the character itself *)
| NotLit (c : ascii).      (* the class [^c] *)

Inductive Quant : Type := Once | Optional | Many.

Definition Pattern : Type := list (Atom * Quant).

Definition accepts (a : Atom) (c : ascii) : bool :=
  match a with
  | Lit x => Ascii.eqb c x
  | NotLit x => negb (Ascii.eqb c x)
  end.

(** Backtracking match of [p] at the start of [s]: the input left after
    the match that a greedy engine finds first, or [None]. *)
Fixpoint match_here (p : Pattern) (s : list ascii) : option (list ascii) :=
  match p with
  | [] => Some s
  | (a, Once) :: p' =>
      match s with
      | c :: s' => if accepts a c then match_here p' s' else None
      | [] => None
      end
  | (a, Optional) :: p' =>
      match s with
      | c :: s' =>
          if accepts a c
          then match match_here p' s' with
               | Some r => Some r
               | None => match_here p' s
               end
          else match_here p' s
      | [] => match_here p' s
      end
  | (a, Many) :: p' =>
      (fix many (s : list ascii) : option (list ascii) :=
         match s with
         | c :: s' =>
             if accepts a c
             then match many s' with
                  | Some r => Some r
                  | None => match_here p' s
                  end
             else match_here p' s
         | [] => match_here p' s
         end) s
  end.

(** [s.replace(/p/g, '')]: scan from the left; where the pattern matches,
    drop the matched characters and go on after them (after one more
    character when the match is empty); elsewhere keep the character. *)
Equations? replace_all_empty (p : Pattern) (s : list ascii) : list ascii
  by wf (length s) lt :=
  replace_all_empty p [] := [];
  replace_all_empty p (c :: s') with match_here p (c :: s') := {
    | Some r with le_lt_dec (length r) (length s') := {
        | left _ := replace_all_empty p r;
        | right _ := c :: replace_all_empty p s' };
    | None := c :: replace_all_empty p s' }.
Proof. all: simpl; lia. Qed.

End JS.


(* ===================================================================== *)
(** ** The platform: network, timers, script injection *)
(* ===================================================================== *)

Module Platform.
Import JS.

(** The argument of [fetch(url, init)]; [body] is the object handed to
    [JSON.stringify], before serialisation. *)
Record Request : Type := mkRequest {
  url : string;
  method : string;
  headers : list (string * string);
  body : Value
}.

(** What the worker reads of a [Response]: the status, and what
    [response.text()] and [response.json()] resolve to (or reject with). *)
Record Response : Type := mkResponse {
  status : N;
  text : Completion string;
  json : Completion Value
}.

(** [response.ok]: the status is in the range 200-299. *)
Definition ok (r : Response) : bool :=
  ((200 <=? status r) && (status r <=? 299))%N.

(** The remote endpoint: what the [k]-th call of [fetch] (counting from 0)
    resolves to, or the error it rejects with. *)
Definition Network : Type := nat -> Request -> Completion Response.

(** A browser tab; [id] is [None] where [tab.id] is [undefined]. *)
Record Tab : Type := mkTab { id : option N }.

(** [!tab.id] is false exactly for a defined, non-zero id. *)
Definition truthy_id (i : option N) : bool :=
  match i with
  | Some n => negb (n =? 0)%N
  | None => false
  end.

(** The functions the worker injects with [chrome.scripting.executeScript],
    with their arguments. *)
Inductive Script : Type :=
| displayResultModal (title content : Value)
| showProcessingModal (message : string)
| removeProcessingModal
| showPromptModal (selectedText : string)
| showTranslationModal (selectedText : string)
| showApiKeyModal.

(** The messages the injected modals send with [chrome.runtime.sendMessage]. *)
Inductive Message : Type :=
| saveApiKey (apiKey : string)
| runCustomPrompt (selectedText customPrompt : string)
| runTranslation (selectedText targetLanguage : string).

(** Observable effects, in the order they happen. *)
Inductive Event : Type :=
| Fetch (req : Request)
| SetTimeout (ms : N)
| ExecuteScript (tabId : option N) (script : Script)
| SendResponse (response : Value)
| ConsoleError (label : string) (error : Error).

(** The requests sent to the remote endpoint, in order. *)
Fixpoint requests (evs : list Event) : list Request :=
  match evs with
  | [] => []
  | Fetch r :: rest => r :: requests rest
  | _ :: rest => requests rest
  end.

(** Number of calls to the remote endpoint in a trace. *)
Definition fetch_count (evs : list Event) : nat := List.length (requests evs).

(** The delays waited, in order. *)
Fixpoint delays (evs : list Event) : list N :=
  match evs with
  | [] => []
  | SetTimeout ms :: rest => ms :: delays rest
  | _ :: rest => delays rest
  end.

(** *** Asynchronous code, run sequentially

    A computation starts when [n] calls of [fetch] have been issued, and
    finishes with a completion, the new number of calls and the events it
    caused. *)
Definition Run (A : Type) : Type := nat -> Completion A * nat * list Event.

Definition ret {A} (a : A) : Run A := fun n => (Normal a, n, []).

Definition throw {A} (e : Error) : Run A := fun n => (Throw e, n, []).

Definition lift {A} (c : Completion A) : Run A := fun n => (c, n, []).

Definition emit (e : Event) : Run unit := fun n => (Normal tt, n, [e]).

Definition bind {A B} (m : Run A) (k : A -> Run B) : Run B :=
  fun n =>
    match m n with
    | (Normal a, n1, ev1) =>
        match k a n1 with
        | (r, n2, ev2) => (r, n2, ev1 ++ ev2)
        end
    | (Throw e, n1, ev1) => (Throw e, n1, ev1)
    end.

(** [try { m } catch (error) { handler error }]. *)
Definition try_catch {A} (m : Run A) (handler : Error -> Run A) : Run A :=
  fun n =>
    match m n with
    | (Normal a, n1, ev1) => (Normal a, n1, ev1)
    | (Throw e, n1, ev1) =>
        match handler e n1 with
        | (r, n2, ev2) => (r, n2, ev1 ++ ev2)
        end
    end.

(** [try { m } finally { cleanup }], for a [cleanup] that does not throw. *)
Definition finally {A} (m : Run A) (cleanup : Run unit) : Run A :=
  fun n =>
    match m n with
    | (r, n1, ev1) =>
        match cleanup n1 with
        | (_, n2, ev2) => (r, n2, ev1 ++ ev2)
        end
    end.

(** [await fetch(url, init)]. *)
Definition fetch (net : Network) (req : Request) : Run Response :=
  fun n => (net n req, S n, [Fetch req]).

(** [await new Promise(resolve => setTimeout(resolve, ms))]. *)
Definition sleep (ms : N) : Run unit := emit (SetTimeout ms).

Definition events {A} (r : Completion A * nat * list Event) : list Event := snd r.
Definition completion {A} (r : Completion A * nat * list Event) : Completion A :=
  fst (fst r).

End Platform.

Declare Scope run_scope.
Delimit Scope run_scope with run.
Notation "x <- m ;; k" := (Platform.bind m (fun x => k))
  (at level 61, m at next level, right associativity) : run_scope.
Notation "m ;; k" := (Platform.bind m (fun _ => k))
  (at level 61, right associativity) : run_scope.

(* ===================================================================== *)
(** ** service_worker.js *)
(* ===================================================================== *)

Module Worker.
Import JS Platform.
Local Open Scope run_scope.

Definition SUBMENU_SUMMARIZE_ID : string := "NANO_SUMMARIZE".
Definition SUBMENU_REWRITE_ID : string := "NANO_REWRITE".
Definition SUBMENU_PROOFREAD_ID : string := "NANO_PROOFREAD".
Definition SUBMENU_CUSTOM_PROMPT_ID : string := "NANO_CUSTOM".
Definition SUBMENU_TRANSLATE_ID : string := "NANO_TRANSLATE".
Definition ACTION_SET_API_KEY : string := "SET_API_KEY".
Definition AI_TASKS_GROUP : string := "AI_TASKS_GROUP".

Definition GEMINI_MODEL : string := "gemini-2.5-flash-preview-05-20".
Definition API_URL_BASE : string :=
  "https://generativelanguage.googleapis.com/v1beta/models/".

(** The worker's one global variable, [let GEMINI_API_KEY = ""]. *)
Record Globals : Type := mkGlobals { GEMINI_API_KEY : string }.

Definition initial : Globals := mkGlobals "".

(** *** UI helpers *)

Definition injectResultModal (tabId : option N) (title content : Value) : Run unit :=
  emit (ExecuteScript tabId (displayResultModal title content)).

Definition injectProcessingModal (tabId : option N) (message : string) : Run unit :=
  emit (ExecuteScript tabId (showProcessingModal message)).

Definition hideProcessingModal (tabId : option N) : Run unit :=
  emit (ExecuteScript tabId removeProcessingModal).

(** *** executeCloudAiTask *)

(** The regular expression literal [/<[^>]*>?/gm]. *)
Definition TAG : Pattern :=
  [(Lit "<", Once); (NotLit ">", Many); (Lit ">", Optional)].

(** [text.replace(/<[^>]*>?/gm, '')]. *)
Definition strip_tags (text : string) : string :=
  string_of_list_ascii (replace_all_empty TAG (list_ascii_of_string text)).

(** The object literal [payload]. *)
Definition make_payload (plainText systemPrompt : string) : Value :=
  Obj [ ("contents",
          Arr [Obj [("parts", Arr [Obj [("text", Str ("Original Text: " ++ plainText))]])]]);
        ("systemInstruction",
          Obj [("parts", Arr [Obj [("text", Str systemPrompt)]])]);
        ("generationConfig", Obj [("temperature", Num 0.2)]) ].

Definition make_apiUrl (g : Globals) : string :=
  API_URL_BASE ++ GEMINI_MODEL ++ ":generateContent?key=" ++ GEMINI_API_KEY g.

Definition make_request (apiUrl : string) (payload : Value) : Request :=
  {| url := apiUrl;
     method := "POST";
     headers := [("Content-Type", "application/json")];
     body := payload |}.

(** [result.candidates?.[0]?.content?.parts?.[0]?.text]: only the first
    access is unguarded. *)
Definition generatedText_of (result : Value) : Completion Value :=
  match get result "candidates" with
  | Normal candidates =>
      Normal (opt_get (opt_index (opt_get (opt_get (opt_index candidates 0)
                                                   "content") "parts") 0) "text")
  | Throw e => Throw e
  end.

Definition MALFORMED : string :=
  "Received an empty or malformed response from the API.".

(** What one attempt makes of the outcome of its [fetch]: the rest of the
    [try] block. *)
Definition read_response (outcome : Completion Response) : Completion Value :=
  match outcome with
  | Throw e => Throw e
  | Normal response =>
      if negb (ok response) then
        match text response with
        | Normal errorText =>
            Throw (new_Error ("HTTP error " ++ decimal (status response)
                                ++ ": " ++ errorText))
        | Throw e => Throw e
        end
      else
        match json response with
        | Normal result =>
            match generatedText_of result with
            | Normal generatedText =>
                if truthy generatedText then Normal generatedText
                else Throw (new_Error MALFORMED)
            | Throw e => Throw e
            end
        | Throw e => Throw e
        end
  end.

(** The body of the [try] block of one attempt. *)
Definition try_block (net : Network) (req : Request) : Run Value :=
  fun n => (read_response (net n req), S n, [Fetch req]).

(** [1000 * Math.pow(2, attempt)]. *)
Definition backoff (attempt : nat) : N := (1000 * 2 ^ N.of_nat attempt)%N.

(** Where [executeCloudAiTask] left its loop. *)
Inductive Exit : Type :=
| Returned (attempt : nat) (generatedText : Value)   (* [return generatedText] *)
| Rethrown (attempt : nat) (error : Error)           (* [throw error] in the handler *)
| FellThrough (error : Error).                       (* the [throw] after the loop *)

Definition after (evs : list Event) (r : Exit * nat * list Event)
  : Exit * nat * list Event :=
  match r with
  | (x, n, evs') => (x, n, evs ++ evs')
  end.

(** [for (let attempt = 0; attempt < 3; attempt++) { try ... catch ... }]
    followed by the final [throw], entered at [attempt]. *)
Equations? retry_loop (net : Network) (req : Request) (attempt : nat) (n : nat)
  : Exit * nat * list Event by wf (3 - attempt) lt :=
  retry_loop net req attempt n with lt_dec attempt 3 := {
    | right _ :=
        (FellThrough (new_Error "Maximum retry attempts reached."), n, []);
    | left _ with try_block net req n := {
        | (Normal generatedText, n1, evs) := (Returned attempt generatedText, n1, evs);
        | (Throw error, n1, evs) with Nat.eqb attempt 2 := {
            | true := (Rethrown attempt error, n1, evs);
            | false :=
                after (evs ++ [SetTimeout (backoff attempt)])
                      (retry_loop net req (S attempt) n1) } } }.
Proof. clear retry_loop. destruct attempt as [|[|[|k]]]; cbn; lia. Qed.

Definition completion_of_exit (x : Exit) : Completion Value :=
  match x with
  | Returned _ v => Normal v
  | Rethrown _ e => Throw e
  | FellThrough e => Throw e
  end.

(** [executeCloudAiTask], with the place it left the loop. *)
Definition executeCloudAiTask_exit (g : Globals) (net : Network)
    (text systemPrompt : string) (n : nat) : Exit * nat * list Event :=
  let plainText := strip_tags text in
  let payload := make_payload plainText systemPrompt in
  let apiUrl := make_apiUrl g in
  retry_loop net (make_request apiUrl payload) 0 n.

Definition executeCloudAiTask (g : Globals) (net : Network)
    (text systemPrompt : string) : Run Value :=
  fun n =>
    match executeCloudAiTask_exit g net text systemPrompt n with
    | (x, n', evs) => (completion_of_exit x, n', evs)
    end.

(** *** runAiTask *)

Definition SUMMARIZE_PROMPT : string :=
  "You are an expert summarizer. Provide the key points from the context as a short, concise, bulleted list using markdown format.".

Definition REWRITE_PROMPT : string :=
  "Rewrite the following text to simplify it for a 5th-grade reading level. Keep the length similar.".

Definition PROOFREAD_PROMPT : string :=
  "Proofread the text provided. First, output the fully corrected text. Second, list all significant changes made (grammar, spelling, syntax) in a bulleted list format.".

(** The [switch] of [runAiTask]: the pair ([result], [title]) it leaves;
    both stay [undefined] when no [case] matches. *)
Definition run_switch (g : Globals) (net : Network)
    (menuItemId selectedText : string) : Run (Value * Value) :=
  if String.eqb menuItemId SUBMENU_SUMMARIZE_ID then
    result <- executeCloudAiTask g net selectedText SUMMARIZE_PROMPT ;;
    ret (result, Str "AI Summary (Key Points)")
  else if String.eqb menuItemId SUBMENU_REWRITE_ID then
    result <- executeCloudAiTask g net selectedText REWRITE_PROMPT ;;
    ret (result, Str "AI Rewrite (Simplified)")
  else if String.eqb menuItemId SUBMENU_PROOFREAD_ID then
    result <- executeCloudAiTask g net selectedText PROOFREAD_PROMPT ;;
    ret (result, Str "Proofread Corrections")
  else
    ret (Undefined, Undefined).

Definition runAiTask (g : Globals) (net : Network)
    (menuItemId selectedText : string) (tabId : option N) : Run unit :=
  finally
    (try_catch
       (injectProcessingModal tabId "Querying Cloud AI..." ;;
        rt <- run_switch g net menuItemId selectedText ;;
        injectResultModal tabId (snd rt) (fst rt))
       (fun error =>
          emit (ConsoleError ("AI Task Error for " ++ menuItemId ++ ":") error) ;;
          let errorMessage :=
            if truthy_string (message error) then message error
            else "API request failed. Check your API key and connection." in
          injectResultModal tabId (Str "Cloud AI Error")
                            (Str ("Error: " ++ errorMessage))))
    (hideProcessingModal tabId).

(** *** chrome.contextMenus.onClicked *)

(** The [info] argument: the item clicked and the selected text, [None]
    where [info.selectionText] is [undefined]. *)
Record OnClickData : Type := mkOnClickData {
  menuItemId : string;
  selectionText : option string
}.

Definition CONFIGURATION_REQUIRED : string :=
  "Please set your Gemini API key using the '⚙️ Set Gemini API Key...' menu option before running AI tasks.".

Definition onClicked (g : Globals) (net : Network)
    (info : OnClickData) (tab : Tab) : Run unit :=
  if String.eqb (menuItemId info) ACTION_SET_API_KEY then
    emit (ExecuteScript (id tab) showApiKeyModal)
  else
    match selectionText info with
    | None => ret tt
    | Some selectedText =>
        if negb (truthy_string selectedText) || negb (truthy_id (id tab))
           || String.eqb (menuItemId info) AI_TASKS_GROUP
        then ret tt
        else if negb (truthy_string (GEMINI_API_KEY g)) then
          injectResultModal (id tab) (Str "Configuration Required")
                            (Str CONFIGURATION_REQUIRED)
        else if String.eqb (menuItemId info) SUBMENU_CUSTOM_PROMPT_ID then
          hideProcessingModal (id tab) ;;
          emit (ExecuteScript (id tab) (showPromptModal selectedText))
        else if String.eqb (menuItemId info) SUBMENU_TRANSLATE_ID then
          hideProcessingModal (id tab) ;;
          emit (ExecuteScript (id tab) (showTranslationModal selectedText))
        else
          runAiTask g net (menuItemId info) selectedText (id tab)
    end.

(** *** chrome.runtime.onMessage, the listener for the two modals *)

Definition translation_prompt (targetLanguage : string) : string :=
  "You are an expert translator. Translate the following text strictly into "
    ++ targetLanguage ++ " and provide only the translated text as the output.".

Definition status_success : Value := Obj [("status", Str "success")].

Definition status_error (msg : string) : Value :=
  Obj [("status", Str "error"); ("message", Str msg)].

(** [executeCloudAiTask(...).then(...).catch(...).finally(...)] with the
    three handlers of the listener. *)
Definition run_and_report (g : Globals) (net : Network) (tabId : option N)
    (selectedText systemPrompt : string) (okTitle errTitle : string) : Run unit :=
  finally
    (try_catch
       (result <- executeCloudAiTask g net selectedText systemPrompt ;;
        injectResultModal tabId (Str okTitle) result ;;
        emit (SendResponse status_success))
       (fun error =>
          injectResultModal tabId (Str errTitle) (Str (message error)) ;;
          emit (SendResponse (status_error (message error)))))
    (hideProcessingModal tabId).

(** The listener; [sender] is the tab the message came from. *)
Definition onMessage (g : Globals) (net : Network)
    (request : Message) (sender : Tab) : Run unit :=
  match request with
  | runCustomPrompt selectedText customPrompt =>
      if truthy_id (id sender) then
        injectProcessingModal (id sender) "Running Custom Prompt..." ;;
        run_and_report g net (id sender) selectedText customPrompt
                       "Custom Prompt Result" "Prompt Error"
      else ret tt
  | runTranslation selectedText targetLanguage =>
      if truthy_id (id sender) then
        injectProcessingModal (id sender)
                              ("Translating to " ++ targetLanguage ++ "...") ;;
        run_and_report g net (id sender) selectedText
                       (translation_prompt targetLanguage)
                       ("Translation: " ++ targetLanguage) "Translation Error"
      else ret tt
  | saveApiKey _ => ret tt
  end.

End Worker.

(* ===================================================================== *)
(** ** The parameter modals (injected into the page) *)
(* ===================================================================== *)

Module Page.
Import JS Platform.

(** What a click on a modal's submit button does in the page. *)
Inductive Effect : Type :=
| sendMessage (m : Message)
| removeModal (elementId : string)
| alert (msg : string).

(** [onclick] of the button [translate-submit] in [showTranslationModal];
    [value] is what the input field holds. *)
Definition translate_submit_onclick (selectedText value : string) : list Effect :=
  let targetLanguage := trim value in
  if truthy_string targetLanguage then
    [sendMessage (runTranslation selectedText targetLanguage);
     removeModal "translation-input-modal"]
  else
    [alert "Please enter a target language."].

(** [onclick] of the button [nano-prompt-submit] in [showPromptModal]. *)
Definition prompt_submit_onclick (selectedText value : string) : list Effect :=
  let customPrompt := trim value in
  if truthy_string customPrompt then
    [sendMessage (runCustomPrompt selectedText customPrompt);
     removeModal "nano-prompt-input-modal"]
  else
    [alert "Please enter a custom instruction."].

(** The worker's reaction to the effects of one click: each message sent
    reaches the listener. *)
Fixpoint deliver (g : Worker.Globals) (net : Network) (sender : Tab)
    (effects : list Effect) : Run unit :=
  match effects with
  | [] => ret tt
  | sendMessage m :: rest =>
      bind (Worker.onMessage g net m sender) (fun _ => deliver g net sender rest)
  | _ :: rest => deliver g net sender rest
  end.

End Page.

(* ===================================================================== *)
(** ** The key: storage, the save listener, installation *)
(* ===================================================================== *)

Module Settings.
Import JS Platform Worker.

(** The one entry of [chrome.storage.local] the worker uses; [None] while
    nothing is stored under "geminiApiKey". *)
Record Storage : Type := mkStorage { geminiApiKey : option string }.

(** What the save listener does besides assigning the key. *)
Inductive Effect : Type :=
| StorageSet (value : string)              (* [chrome.storage.local.set] *)
| RemoveApiKeyModal (tabId : option N)     (* the injected [remove()] *)
| ConsoleLog (msg : string).

(** The first [chrome.runtime.onMessage] listener: the new global, the new
    storage, what it did, and whether it returned [true]. *)
Definition onMessage_saveApiKey (g : Globals) (store : Storage)
    (request : Message) (sender : Tab)
  : Globals * Storage * list Effect * bool :=
  match request with
  | saveApiKey apiKey =>
      (mkGlobals apiKey,
       mkStorage (Some apiKey),
       [StorageSet apiKey; RemoveApiKeyModal (id sender);
        ConsoleLog "Gemini API Key saved."],
       true)
  | _ => (g, store, [], false)
  end.

(** The callback of [chrome.storage.local.get(['geminiApiKey'], ...)]. *)
Definition load_key (g : Globals) (store : Storage) : Globals * list Effect :=
  match geminiApiKey store with
  | Some key =>
      if truthy_string key
      then (mkGlobals key, [ConsoleLog "Gemini API Key loaded from storage."])
      else (g, [])
  | None => (g, [])
  end.

(** *** Context menus *)

(** The properties given to [chrome.contextMenus.create]. *)
Record MenuItem : Type := mkMenuItem {
  item_id : string;
  parentId : option string;
  title : string;
  contexts : list string
}.

(** The calls the listener makes on [chrome.contextMenus]. *)
Inductive MenuCall : Type :=
| removeAll
| create (item : MenuItem).

Definition child (i t : string) : MenuItem :=
  mkMenuItem i (Some AI_TASKS_GROUP) t ["selection"].

(** The items of the seven [create] calls, in order. *)
Definition created : list MenuItem :=
  [ mkMenuItem ACTION_SET_API_KEY None "⚙️ Set Gemini API Key..." ["all"];
    mkMenuItem AI_TASKS_GROUP None "Cloud AI Tasks" ["selection"];
    child SUBMENU_SUMMARIZE_ID "Summarize (Key Points)";
    child SUBMENU_REWRITE_ID "Rewrite: Simplify";
    child SUBMENU_PROOFREAD_ID "Proofread & Correct";
    child SUBMENU_TRANSLATE_ID "Translate to...";
    child SUBMENU_CUSTOM_PROMPT_ID "Custom Prompt..." ].

(** The [chrome.runtime.onInstalled] listener: the global after the key is
    loaded, the menu calls in the order they are made ([removeAll], then in
    its callback the seven [create]), and what the load did. *)
Definition onInstalled (g : Globals) (store : Storage)
  : Globals * list MenuCall * list Effect :=
  let loaded := load_key g store in
  (fst loaded, removeAll :: map create created, snd loaded).

End Settings.

(* ===================================================================== *)
(** ** Regular expressions with a wildcard, lazy repetition, a group *)
(* ===================================================================== *)

Module RegExp.

Inductive Atom : Type :=
| Lit (c : ascii)          (* the character itself *)
| NotLit (c : ascii)       (* the class [^c] *)
| Dot.                     (* [.]: any character but a line terminator *)

Inductive Quant : Type :=
| Once
| Optional                 (* [?] *)
| Many                     (* [*], greedy *)
| ManyLazy.                (* [*?] *)

Inductive Item : Type :=
| Match (a : Atom) (q : Quant)
| Bol                      (* [^] under the [m] flag *)
| Open                     (* the parenthesis that opens group 1 *)
| Close.                   (* the parenthesis that closes it *)

Definition Pattern : Type := list Item.

(** Line feed and carriage return. *)
Definition line_terminator (c : ascii) : bool :=
  Ascii.eqb c "010" || Ascii.eqb c "013".

Definition accepts (a : Atom) (c : ascii) : bool :=
  match a with
  | Lit x => Ascii.eqb c x
  | NotLit x => negb (Ascii.eqb c x)
  | Dot => negb (line_terminator c)
  end.

(** What a match in progress remembers: the character before the current
    position, the characters taken by the group while it is open (last
    first), and what the group captured once closed. *)
Record Context : Type := mkContext {
  prev : option ascii;
  opened : option (list ascii);
  captured : option (list ascii)
}.

Definition start_at (before : option ascii) : Context := mkContext before None None.

Definition consume (c : ascii) (ctx : Context) : Context :=
  mkContext (Some c) (option_map (cons c) (opened ctx)) (captured ctx).

Definition at_line_start (ctx : Context) : bool :=
  match prev ctx with
  | None => true
  | Some c => line_terminator c
  end.

(** The result of a match: the input left and the final context. *)
Definition Outcome : Type := option (list ascii * Context).

Definition Cont : Type := list ascii -> Context -> Outcome.

(** One character. *)
Definition once (a : Atom) (k : Cont) : Cont :=
  fun s ctx =>
    match s with
    | c :: s' => if accepts a c then k s' (consume c ctx) else None
    | [] => None
    end.

(** [a?]: take the character if that leads to a match, else go on. *)
Definition optional (a : Atom) (k : Cont) : Cont :=
  fun s ctx =>
    match s with
    | c :: s' =>
        if accepts a c
        then match k s' (consume c ctx) with
             | Some r => Some r
             | None => k s ctx
             end
        else k s ctx
    | [] => k s ctx
    end.

(** [a*]: take as many characters as possible, give back as needed. *)
Fixpoint many (a : Atom) (k : Cont) (s : list ascii) (ctx : Context) : Outcome :=
  match s with
  | c :: s' =>
      if accepts a c
      then match many a k s' (consume c ctx) with
           | Some r => Some r
           | None => k s ctx
           end
      else k s ctx
  | [] => k s ctx
  end.

(** [a*?]: go on as soon as the rest matches, else take one more. *)
Fixpoint many_lazy (a : Atom) (k : Cont) (s : list ascii) (ctx : Context) : Outcome :=
  match k s ctx with
  | Some r => Some r
  | None =>
      match s with
      | c :: s' => if accepts a c then many_lazy a k s' (consume c ctx) else None
      | [] => None
      end
  end.

(** Backtracking match of [p] at the current position. *)
Fixpoint match_here (p : Pattern) : Cont :=
  match p with
  | [] => fun s ctx => Some (s, ctx)
  | Bol :: p' => fun s ctx => if at_line_start ctx then match_here p' s ctx else None
  | Open :: p' =>
      fun s ctx => match_here p' s (mkContext (prev ctx) (Some []) (captured ctx))
  | Close :: p' =>
      fun s ctx =>
        match_here p' s (mkContext (prev ctx) None (option_map (@rev ascii) (opened ctx)))
  | Match a Once :: p' => once a (match_here p')
  | Match a Optional :: p' => optional a (match_here p')
  | Match a Many :: p' => many a (match_here p')
  | Match a ManyLazy :: p' => many_lazy a (match_here p')
  end.

(** A replacement string, cut at its [$1]. *)
Inductive Piece : Type :=
| Text (s : string)
| Group1.

Definition expand_piece (ctx : Context) (p : Piece) : list ascii :=
  match p with
  | Text s => list_ascii_of_string s
  | Group1 => match captured ctx with
              | Some l => l
              | None => []
              end
  end.

Definition expand (template : list Piece) (ctx : Context) : list ascii :=
  concat (map (expand_piece ctx) template).

(** [s.replace(/p/g, template)] from a position preceded by [before]:
    where the pattern matches, the expanded template replaces the match and
    the scan goes on after it (after one more character, copied, when the
    match is empty); elsewhere the character is copied. *)
Equations? replace_from (p : Pattern) (template : list Piece)
    (before : option ascii) (s : list ascii) : list ascii by wf (length s) lt :=
  replace_from p template before [] with match_here p [] (start_at before) := {
    | Some (_, ctx) := expand template ctx;
    | None := [] };
  replace_from p template before (c :: s') with match_here p (c :: s') (start_at before) := {
    | Some (rest, ctx) with le_lt_dec (length rest) (length s') := {
        | left _ := expand template ctx ++ replace_from p template (prev ctx) rest;
        | right _ := expand template ctx ++ c :: replace_from p template (Some c) s' };
    | None := c :: replace_from p template (Some c) s' }.
Proof. all: simpl; lia. Qed.

Definition replace_all (p : Pattern) (template : list Piece) (s : string) : string :=
  string_of_list_ascii (replace_from p template None (list_ascii_of_string s)).

End RegExp.

(* ===================================================================== *)
(** ** The injected modals: what they show and send *)
(* ===================================================================== *)

Module Modals.
Import JS Platform RegExp.

(** The pattern of the first [replace] of [displayResultModal]: two stars,
    group 1 (any characters, as few as possible), two stars; flag [g]. *)
Definition BOLD : Pattern :=
  [Match (Lit "*") Once; Match (Lit "*") Once;
   Open; Match Dot ManyLazy; Close;
   Match (Lit "*") Once; Match (Lit "*") Once].

(** The pattern of the second [replace]: at the start of a line, a dash
    and a space, then group 1 (any characters, as many as possible);
    flags [g] and [m]. *)
Definition BULLET : Pattern :=
  [Bol; Match (Lit "-") Once; Match (Lit " ") Once; Open; Match Dot Many; Close].

(** The pattern of the third [replace]: two line feeds; flag [g]. *)
Definition BLANK_LINE : Pattern :=
  [Match (Lit "010") Once; Match (Lit "010") Once].

(** The first [replace]: bold markers become [<strong>] elements. *)
Definition bold (s : string) : string :=
  replace_all BOLD [Text "<strong>"; Group1; Text "</strong>"] s.

(** The second [replace]: lines that start with a dash and a space become
    [<li>] elements. *)
Definition bullets (s : string) : string :=
  replace_all BULLET [Text "<li>"; Group1; Text "</li>"] s.

(** The third [replace]: blank lines become paragraph breaks. *)
Definition paragraphs (s : string) : string :=
  replace_all BLANK_LINE [Text "</p><p>"] s.

(** [htmlContent] of [displayResultModal]. *)
Definition htmlContent (content : string) : string := bullets (bold content).

(** [s.startsWith(p)]. *)
Fixpoint startsWith (s p : string) : bool :=
  match p, s with
  | EmptyString, _ => true
  | String a p', String b s' => Ascii.eqb a b && startsWith s' p'
  | String _ _, EmptyString => false
  end.

(** [finalContent] of [displayResultModal]. *)
Definition finalContent (content : string) : string :=
  let html := htmlContent content in
  if startsWith html "<li>" then ("<ul>" ++ html ++ "</ul>")%string
  else ("<p>" ++ paragraphs html ++ "</p>")%string.

(** [selectedText.substring(0, 100)] followed by "...", the context
    snippet of the two parameter modals. *)
Definition snippet (selectedText : string) : string :=
  (String.substring 0 100 selectedText ++ "...")%string.

(** [onclick] of the button [api-key-save] in [showApiKeyModal]. *)
Definition api_key_save_onclick (value : string) : list Page.Effect :=
  let apiKey := trim value in
  if truthy_string apiKey then [Page.sendMessage (saveApiKey apiKey)]
  else [Page.alert "The API Key cannot be empty."].

(** The save listener's reaction to the effects of one click. *)
Fixpoint deliver_key (g : Worker.Globals) (store : Settings.Storage) (sender : Tab)
    (effects : list Page.Effect) : Worker.Globals * Settings.Storage :=
  match effects with
  | [] => (g, store)
  | Page.sendMessage m :: rest =>
      let r := Settings.onMessage_saveApiKey g store m sender in
      deliver_key (fst (fst (fst r))) (snd (fst (fst r))) sender rest
  | _ :: rest => deliver_key g store sender rest
  end.

End Modals.

(* ===================================================================== *)
(** ** Properties *)
(* ===================================================================== *)

Import JS Platform Worker.
Local Open Scope string_scope.

(** *** Vocabulary of the statements: invocations *)

(** The request that an invocation sends at every attempt. *)
Definition request_of (g : Globals) (text systemPrompt : string) : Request :=
  make_request (make_apiUrl g) (make_payload (strip_tags text) systemPrompt).

(** Outcome of attempt number [k] (from 0) of an invocation that starts
    when [n] calls have been issued. *)
Definition attempt_result (net : Network) (req : Request) (n k : nat)
  : Completion Value :=
  read_response (net (n + k) req).

(** The three traces an invocation can leave. *)
Definition one_attempt (req : Request) : list Event := [Fetch req].

Definition two_attempts (req : Request) : list Event :=
  [Fetch req; SetTimeout 1000; Fetch req].

Definition three_attempts (req : Request) : list Event :=
  [Fetch req; SetTimeout 1000; Fetch req; SetTimeout 2000; Fetch req].

(** The loop written out, attempt by attempt. *)
Definition unrolled (net : Network) (req : Request) (n : nat)
  : Exit * nat * list Event :=
  match attempt_result net req n 0 with
  | Normal v => (Returned 0 v, 1 + n, one_attempt req)
  | Throw _ =>
      match attempt_result net req n 1 with
      | Normal v => (Returned 1 v, 2 + n, two_attempts req)
      | Throw _ =>
          match attempt_result net req n 2 with
          | Normal v => (Returned 2 v, 3 + n, three_attempts req)
          | Throw e => (Rethrown 2 e, 3 + n, three_attempts req)
          end
      end
  end.

(** *** Vocabulary of the statements: tag stripping *)

(** What is left of the input after the rest of a tag: everything after
    the first ">", or nothing when there is none. *)
Fixpoint skip_tag (s : list ascii) : list ascii :=
  match s with
  | [] => []
  | c :: rest => if Ascii.eqb c ">" then rest else skip_tag rest
  end.

(** The replacement read as a two-state scan: outside a tag characters are
    copied until "<"; inside a tag they are dropped up to and including the
    next ">". *)
Fixpoint scan (inTag : bool) (s : list ascii) : list ascii :=
  match s with
  | [] => []
  | c :: rest =>
      if inTag then
        if Ascii.eqb c ">" then scan false rest else scan true rest
      else
        if Ascii.eqb c "<" then scan true rest else c :: scan false rest
  end.

(** Line feed and carriage return. *)
Definition is_line_terminator (c : ascii) : bool :=
  Ascii.eqb c "010" || Ascii.eqb c "013".

(** The reading "per line" of the specification, to compare [scan] with:
    as [scan], but a tag also ends, unclosed, at the end of its line, and
    the line terminator is kept. *)
Fixpoint scan_per_line (inTag : bool) (s : list ascii) : list ascii :=
  match s with
  | [] => []
  | c :: rest =>
      if is_line_terminator c then c :: scan_per_line false rest
      else if inTag then
        if Ascii.eqb c ">" then scan_per_line false rest
        else scan_per_line true rest
      else
        if Ascii.eqb c "<" then scan_per_line true rest
        else c :: scan_per_line false rest
  end.

(** Sanitization under the per-line reading. *)
Definition strip_tags_per_line (text : string) : string :=
  string_of_list_ascii (scan_per_line false (list_ascii_of_string text)).

(** [occurs c s]: the character [c] occurs in [s]. *)
Fixpoint occurs (c : ascii) (s : string) : bool :=
  match s with
  | EmptyString => false
  | String c' rest => Ascii.eqb c' c || occurs c rest
  end.

(** [scan] on strings. *)
Definition scan_string (inTag : bool) (s : string) : string :=
  string_of_list_ascii (scan inTag (list_ascii_of_string s)).

(** A line feed, as a one-character string. *)
Definition LF : string := String "010" EmptyString.

(** *** Vocabulary of the statements: networks to run the worker against *)

(** A well-formed answer of the endpoint. *)
Definition answer (generated : string) : Value :=
  Obj [("candidates",
        Arr [Obj [("content", Obj [("parts", Arr [Obj [("text", Str generated)]])])]])].

(** An answer of the endpoint with the value [v] in the place of the
    generated text. *)
Definition answer_with (v : Value) : Value :=
  Obj [("candidates",
        Arr [Obj [("content", Obj [("parts", Arr [Obj [("text", v)]])])]])].

(** A 200 response with body [v]. *)
Definition respond_with (v : Value) : Completion Response :=
  Normal (mkResponse 200 (Normal "") (Normal v)).

(** A response with an error status and a body that is not JSON. *)
Definition http_error (code : N) (errorText : string) : Completion Response :=
  Normal (mkResponse code (Normal errorText)
                     (Throw (mkError "SyntaxError" "Unexpected token"))).

(** No connection: [fetch] rejects. *)
Definition offline : Completion Response :=
  Throw (new_TypeError "Failed to fetch").

(** Always answers "out". *)
Definition net_up : Network := fun _ _ => respond_with (answer "out").

(** Rejects the key on every call. *)
Definition net_denied : Network := fun _ _ => http_error 403 "denied".

(** Three different failures in a row: no connection, a server error,
    a body without candidates. *)
Definition net_down : Network :=
  fun k _ =>
    match k with
    | 0 => offline
    | 1 => http_error 500 "boom"
    | _ => respond_with (Obj [])
    end.

(** Fails twice, then answers "out". *)
Definition net_flaky : Network :=
  fun k _ =>
    match k with
    | 0 => offline
    | 1 => http_error 500 "boom"
    | _ => respond_with (answer "out")
    end.

(** *** Vocabulary of the statements: queries *)

(** The resolved query, read back from the body of a request: the system
    level instruction, the user level content, the temperature. *)
Record ModelQuery : Type := mkModelQuery {
  instruction : Value;
  content : Value;
  temperature : Value
}.

(** The query a request carries. *)
Definition query_of (req : Request) : ModelQuery :=
  {| instruction :=
       opt_get (opt_index (opt_get (opt_get (body req) "systemInstruction")
                                   "parts") 0) "text";
     content :=
       opt_get (opt_index (opt_get (opt_index (opt_get (body req) "contents") 0)
                                   "parts") 0) "text";
     temperature := opt_get (opt_get (body req) "generationConfig") "temperature" |}.

(** The instruction [runAiTask] passes for a menu item, if it passes one. *)
Definition template_of (menuItemId : string) : option string :=
  if String.eqb menuItemId SUBMENU_SUMMARIZE_ID then Some SUMMARIZE_PROMPT
  else if String.eqb menuItemId SUBMENU_REWRITE_ID then Some REWRITE_PROMPT
  else if String.eqb menuItemId SUBMENU_PROOFREAD_ID then Some PROOFREAD_PROMPT
  else None.

(** [starts_with p s]: [s] begins with [p]. *)
Fixpoint starts_with (p s : string) : bool :=
  match p, s with
  | EmptyString, _ => true
  | String a p', String b s' => Ascii.eqb a b && starts_with p' s'
  | String _ _, EmptyString => false
  end.

(** [includes s p]: [p] occurs in [s], as [s.includes(p)] tests it. *)
Fixpoint includes (s p : string) : bool :=
  starts_with p s ||
  match s with
  | EmptyString => false
  | String _ s' => includes s' p
  end.

(** The five menu items that start a task. *)
Definition task_items : list string :=
  [SUBMENU_SUMMARIZE_ID; SUBMENU_REWRITE_ID; SUBMENU_PROOFREAD_ID;
   SUBMENU_TRANSLATE_ID; SUBMENU_CUSTOM_PROMPT_ID].

(** *** Vocabulary of the statements: runs of the handlers *)

(** The three direct actions: menu item, instruction, title of the result. *)
Definition direct_actions : list (string * string * string) :=
  [(SUBMENU_SUMMARIZE_ID, SUMMARIZE_PROMPT, "AI Summary (Key Points)");
   (SUBMENU_REWRITE_ID, REWRITE_PROMPT, "AI Rewrite (Simplified)");
   (SUBMENU_PROOFREAD_ID, PROOFREAD_PROMPT, "Proofread Corrections")]%list.

(** The result modals injected during a run, as (title, content). *)
Fixpoint result_modals (evs : list Event) : list (Value * Value) :=
  match evs with
  | [] => []
  | ExecuteScript _ (displayResultModal t c) :: rest => (t, c) :: result_modals rest
  | _ :: rest => result_modals rest
  end%list.

(** The answers given with [sendResponse] during a run. *)
Fixpoint responses (evs : list Event) : list Value :=
  match evs with
  | [] => []
  | SendResponse v :: rest => v :: responses rest
  | _ :: rest => responses rest
  end%list.

(** The sum of the delays waited, in milliseconds. *)
Definition total_delay (evs : list Event) : N := fold_right N.add 0%N (delays evs).

(** *** Vocabulary of the statements: the result modal *)

(** A carriage return, as a one-character string. *)
Definition CR : string := String "013" EmptyString.

(** [join sep l]: the strings of [l] with [sep] between them, as
    [l.join(sep)] builds it. *)
Fixpoint join (sep : string) (l : list string) : string :=
  match l with
  | nil => ""
  | cons x nil => x
  | cons x rest => x ++ sep ++ join sep rest
  end.

(** A text of one line without a star. *)
Definition plain_line (s : string) : bool :=
  negb (occurs "*" s) && negb (occurs "010" s) && negb (occurs "013" s).

(** The replacement on strings, from a position preceded by [before]. *)
Definition replace_str (p : RegExp.Pattern) (template : list RegExp.Piece)
    (before : option ascii) (s : string) : string :=
  string_of_list_ascii
    (RegExp.replace_from p template before (list_ascii_of_string s)).

(** No dash at the start of a line of [s], which follows [before]. *)
Fixpoint no_dash_at_line_start (before : option ascii) (s : string) : bool :=
  match s with
  | EmptyString => true
  | String c rest =>
      negb (RegExp.at_line_start (RegExp.start_at before) && Ascii.eqb c "-")
      && no_dash_at_line_start (Some c) rest
  end.

(** The replacement string of the bold step, and the part of its pattern
    after the group has opened. *)
Definition STRONG : list RegExp.Piece :=
  [RegExp.Text "<strong>"; RegExp.Group1; RegExp.Text "</strong>"]%list.

Definition CLOSE_BOLD : RegExp.Pattern :=
  [RegExp.Close; RegExp.Match (RegExp.Lit "*") RegExp.Once;
   RegExp.Match (RegExp.Lit "*") RegExp.Once]%list.

(** The replacement string of the bullet step, and that of the paragraph
    step. *)
Definition LI : list RegExp.Piece :=
  [RegExp.Text "<li>"; RegExp.Group1; RegExp.Text "</li>"]%list.

Definition BREAK : list RegExp.Piece := [RegExp.Text "</p><p>"]%list.

(** A line of a bulleted list as the model writes it, and as the modal
    shows it. *)
Definition dash_item (item : string) : string := "- " ++ item.

Definition li_item (item : string) : string := "<li>" ++ item ++ "</li>".

(** A text of one line. *)
Definition one_line (s : string) : bool :=
  negb (occurs "010" s) && negb (occurs "013" s).


(** *** The retry loop, unrolled *)

Lemma retry_loop_unrolled (net : Network) (req : Request) (n : nat) :
  retry_loop net req 0 n = unrolled net req n.
Proof.
  unfold unrolled, attempt_result.
  replace (n + 0) with n by lia.
  replace (n + 1) with (S n) by lia.
  replace (n + 2) with (S (S n)) by lia.
  simp retry_loop. unfold try_block. cbn.
  destruct (read_response (net n req)); cbn; [reflexivity|].
  simp retry_loop. unfold try_block. cbn.
  destruct (read_response (net (S n) req)); cbn; [reflexivity|].
  simp retry_loop. unfold try_block. cbn.
  destruct (read_response (net (S (S n)) req)); cbn; reflexivity.
Qed.

(** *** Tag stripping as a scan *)

Lemma many_not_gt (s : list ascii) :
  (fix many (s : list ascii) : option (list ascii) :=
     match s with
     | c :: s' =>
         if accepts (NotLit ">") c
         then match many s' with
              | Some r => Some r
              | None => match_here [(Lit ">", Optional)] s
              end
         else match_here [(Lit ">", Optional)] s
     | [] => match_here [(Lit ">", Optional)] s
     end) s = Some (skip_tag s).
Proof.
  induction s as [|c s IH]; [reflexivity|].
  rewrite IH. cbn. destruct (Ascii.eqb c ">"); reflexivity.
Qed.

Lemma match_here_TAG (c : ascii) (s : list ascii) :
  match_here TAG (c :: s) = if Ascii.eqb c "<" then Some (skip_tag s) else None.
Proof.
  unfold TAG. cbn [match_here accepts].
  destruct (Ascii.eqb c "<"); [apply many_not_gt | reflexivity].
Qed.

Lemma skip_tag_length (s : list ascii) : List.length (skip_tag s) <= List.length s.
Proof.
  induction s as [|c s IH]; cbn; [lia|].
  destruct (Ascii.eqb c ">"); lia.
Qed.

Lemma scan_in_tag (s : list ascii) : scan true s = scan false (skip_tag s).
Proof.
  induction s as [|c s IH]; cbn; [reflexivity|].
  destruct (Ascii.eqb c ">"); [reflexivity | exact IH].
Qed.

Lemma replace_all_TAG (s : list ascii) : replace_all_empty TAG s = scan false s.
Proof.
  remember (List.length s) as k eqn:Hk.
  revert s Hk. pattern k. apply lt_wf_ind. clear k. intros k IH s Hk.
  destruct s as [|c s]; [reflexivity|].
  simp replace_all_empty. rewrite match_here_TAG.
  cbn [scan]. destruct (Ascii.eqb c "<"); cbn.
  - pose proof (skip_tag_length s) as Hlen.
    destruct (le_lt_dec (List.length (skip_tag s)) (List.length s)) as [Hle|Hgt];
      [|lia].
    cbn. rewrite scan_in_tag.
    apply (IH (List.length (skip_tag s))); [cbn in Hk; lia | reflexivity].
  - f_equal. apply (IH (List.length s)); [cbn in Hk; lia | reflexivity].
Qed.

Lemma strip_tags_scan (text : string) :
  strip_tags text = string_of_list_ascii (scan false (list_ascii_of_string text)).
Proof. unfold strip_tags. rewrite replace_all_TAG. reflexivity. Qed.

Lemma scan_string_copy (a rest : string) :
  occurs "<" a = false ->
  scan_string false (a ++ rest) = a ++ scan_string false rest.
Proof.
  unfold scan_string. induction a as [|c a IH]; cbn; [reflexivity|].
  intros H. apply orb_false_iff in H. destruct H as [Hc Ha].
  rewrite Hc. cbn. f_equal. exact (IH Ha).
Qed.

Lemma scan_string_drop (b rest : string) :
  occurs ">" b = false ->
  scan_string true (b ++ rest) = scan_string true rest.
Proof.
  unfold scan_string. induction b as [|c b IH]; cbn; [reflexivity|].
  intros H. apply orb_false_iff in H. destruct H as [Hc Hb].
  rewrite Hc. exact (IH Hb).
Qed.

Lemma append_empty_r (s : string) : s ++ "" = s.
Proof. induction s as [|c s IH]; cbn; [reflexivity | now rewrite IH]. Qed.

Lemma strip_tags_closed_tag (a b c : string) :
  occurs "<" a = false -> occurs ">" b = false ->
  strip_tags (a ++ "<" ++ b ++ ">" ++ c) = a ++ strip_tags c.
Proof.
  intros Ha Hb. rewrite !strip_tags_scan.
  fold (scan_string false (a ++ "<" ++ b ++ ">" ++ c)).
  rewrite (scan_string_copy _ _ Ha). f_equal.
  change (scan_string false ("<" ++ b ++ ">" ++ c))
    with (scan_string true (b ++ ">" ++ c)).
  rewrite (scan_string_drop _ _ Hb). reflexivity.
Qed.

Lemma strip_tags_open_tag (a b : string) :
  occurs "<" a = false -> occurs ">" b = false ->
  strip_tags (a ++ "<" ++ b) = a.
Proof.
  intros Ha Hb. rewrite strip_tags_scan.
  fold (scan_string false (a ++ "<" ++ b)).
  rewrite (scan_string_copy _ _ Ha).
  change (scan_string false ("<" ++ b)) with (scan_string true b).
  rewrite <- (append_empty_r b), (scan_string_drop _ _ Hb).
  cbn. apply append_empty_r.
Qed.

Lemma strip_tags_no_tag (a : string) :
  occurs "<" a = false -> strip_tags a = a.
Proof.
  intros Ha. rewrite strip_tags_scan.
  fold (scan_string false a).
  rewrite <- (append_empty_r a) at 1.
  rewrite (scan_string_copy _ _ Ha). cbn. apply append_empty_r.
Qed.

Lemma scan_per_line_one_line (s : string) :
  occurs "010" s = false -> occurs "013" s = false ->
  forall inTag,
    scan_per_line inTag (list_ascii_of_string s) = scan inTag (list_ascii_of_string s).
Proof.
  induction s as [|c s IH]; cbn; [reflexivity|].
  intros H1 H2 inTag.
  apply orb_false_iff in H1. destruct H1 as [Hc1 Hs1].
  apply orb_false_iff in H2. destruct H2 as [Hc2 Hs2].
  unfold is_line_terminator. rewrite Hc1, Hc2. cbn.
  rewrite !(IH Hs1 Hs2). reflexivity.
Qed.

(** *** Sanitization *)

(** C9, as the claim words it, fails: sanitization is not per line.  On
    the two-line text "1 < 2", line feed, "3" the worker deletes everything
    from the "<" to the end of the text, line feed and second line
    included, whereas a removal that stops at the end of the line keeps
    them. *)
Lemma C9_counterexample :
  strip_tags ("1 < 2" ++ LF ++ "3") = "1 " /\
  strip_tags_per_line ("1 < 2" ++ LF ++ "3") = "1 " ++ LF ++ "3" /\
  strip_tags ("1 < 2" ++ LF ++ "3") <> strip_tags_per_line ("1 < 2" ++ LF ++ "3").
Proof.
  split; [reflexivity|]. split; [reflexivity|]. discriminate.
Qed.

(** C9, amended: sanitization removes every match of "<", any run of
    characters other than ">", and an optional ">" -- a run that crosses
    line breaks.  So each "<" is deleted together with everything up to and
    including the next ">", or up to the end of the text when no ">"
    follows; text before the first "<" is kept.  For "1 < 2" this leaves
    "1 ": the text after a "<" that opens no tag is lost.  On a text of a
    single line this is the same as the per-line reading. *)
Theorem C9_sanitize_deletes_from_lt :
  (forall text,
      strip_tags text = string_of_list_ascii (scan false (list_ascii_of_string text))) /\
  (forall a b c,
      occurs "<" a = false -> occurs ">" b = false ->
      strip_tags (a ++ "<" ++ b ++ ">" ++ c) = a ++ strip_tags c) /\
  (forall a b,
      occurs "<" a = false -> occurs ">" b = false ->
      strip_tags (a ++ "<" ++ b) = a) /\
  (forall a, occurs "<" a = false -> strip_tags a = a) /\
  strip_tags "1 < 2" = "1 " /\
  (forall text,
      occurs "010" text = false -> occurs "013" text = false ->
      strip_tags text = strip_tags_per_line text).
Proof.
  split; [exact strip_tags_scan|].
  split; [exact strip_tags_closed_tag|].
  split; [exact strip_tags_open_tag|].
  split; [exact strip_tags_no_tag|].
  split; [reflexivity|].
  intros text H1 H2. rewrite strip_tags_scan. unfold strip_tags_per_line.
  rewrite (scan_per_line_one_line text H1 H2). reflexivity.
Qed.

(** The amended C9 at concrete texts: a closed tag, an unclosed "<", a text
    without "<", and a one-line text. *)
Lemma C9_witness :
  strip_tags ("a " ++ "<" ++ "b" ++ ">" ++ " c") = "a " ++ strip_tags " c" /\
  strip_tags ("1 " ++ "<" ++ " 2") = "1 " /\
  strip_tags "plain" = "plain" /\
  strip_tags "1 < 2" = strip_tags_per_line "1 < 2".
Proof.
  destruct C9_sanitize_deletes_from_lt as (_ & Hclosed & Hopen & Hnone & _ & Hline).
  split; [apply Hclosed; reflexivity|].
  split; [apply Hopen; reflexivity|].
  split; [apply Hnone; reflexivity|].
  apply Hline; reflexivity.
Defined.

(** *** The retry policy *)

Lemma executeCloudAiTask_exit_unrolled g net text systemPrompt n :
  executeCloudAiTask_exit g net text systemPrompt n
  = unrolled net (request_of g text systemPrompt) n.
Proof. apply retry_loop_unrolled. Qed.

Ltac unroll_task :=
  unfold executeCloudAiTask;
  rewrite ?executeCloudAiTask_exit_unrolled;
  unfold unrolled.

(** C2: an invocation calls the endpoint at least once and at most three
    times, with no delay before the first call, 1000 ms before the second
    and 2000 ms before the third (1000 times 2 to the attempt number).  If
    all three attempts fail it fails with the error of the third attempt,
    after exactly three calls; if two attempts fail and the third succeeds
    it returns that text, after exactly three calls. *)
Theorem C2_retry_policy (g : Globals) (net : Network)
    (text systemPrompt : string) (n : nat) :
  let req := request_of g text systemPrompt in
  let run := executeCloudAiTask g net text systemPrompt n in
  (1 <= fetch_count (events run) <= 3) /\
  (events run = one_attempt req \/ events run = two_attempts req
   \/ events run = three_attempts req) /\
  (backoff 0 = 1000%N /\ backoff 1 = 2000%N /\
   forall k, backoff (S k) = (2 * backoff k)%N) /\
  (forall e0 e1 e2,
      attempt_result net req n 0 = Throw e0 ->
      attempt_result net req n 1 = Throw e1 ->
      attempt_result net req n 2 = Throw e2 ->
      completion run = Throw e2 /\
      events run = three_attempts req /\
      fetch_count (events run) = 3 /\ delays (events run) = [1000%N; 2000%N]) /\
  (forall e0 e1 generated,
      attempt_result net req n 0 = Throw e0 ->
      attempt_result net req n 1 = Throw e1 ->
      attempt_result net req n 2 = Normal generated ->
      completion run = Normal generated /\
      events run = three_attempts req /\
      fetch_count (events run) = 3 /\ delays (events run) = [1000%N; 2000%N]).
Proof.
  intros req run. subst run. unroll_task. fold req.
  split; [|split; [|split; [|split]]].
  - destruct (attempt_result net req n 0); [cbn; lia|].
    destruct (attempt_result net req n 1); [cbn; lia|].
    destruct (attempt_result net req n 2); cbn; lia.
  - destruct (attempt_result net req n 0); [now left|].
    destruct (attempt_result net req n 1); [now right; left|].
    destruct (attempt_result net req n 2); now right; right.
  - split; [reflexivity|]. split; [reflexivity|].
    intros k. unfold backoff. rewrite Nat2N.inj_succ, N.pow_succ_r'. lia.
  - intros e0 e1 e2 H0 H1 H2. rewrite H0, H1, H2. cbn. auto.
  - intros e0 e1 v H0 H1 H2. rewrite H0, H1, H2. cbn. auto.
Qed.

(** C2 on a network that fails three times, and on one that fails twice
    and then answers. *)
Lemma C2_witness :
  (completion (executeCloudAiTask (mkGlobals "key") net_down "text" "prompt" 0)
   = Throw (new_Error MALFORMED) /\
   fetch_count (events (executeCloudAiTask (mkGlobals "key") net_down "text" "prompt" 0)) = 3) /\
  (completion (executeCloudAiTask (mkGlobals "key") net_flaky "text" "prompt" 0)
   = Normal (Str "out") /\
   delays (events (executeCloudAiTask (mkGlobals "key") net_flaky "text" "prompt" 0))
   = [1000%N; 2000%N]).
Proof.
  split.
  - destruct (C2_retry_policy (mkGlobals "key") net_down "text" "prompt" 0)
      as (_ & _ & _ & Hfail & _).
    destruct (Hfail (new_TypeError "Failed to fetch")
                    (new_Error "HTTP error 500: boom")
                    (new_Error MALFORMED)
                    eq_refl eq_refl eq_refl) as (Hc & _ & Hn & _).
    split; [exact Hc | exact Hn].
  - destruct (C2_retry_policy (mkGlobals "key") net_flaky "text" "prompt" 0)
      as (_ & _ & _ & _ & Hok).
    destruct (Hok (new_TypeError "Failed to fetch")
                  (new_Error "HTTP error 500: boom")
                  (Str "out")
                  eq_refl eq_refl eq_refl) as (Hc & _ & _ & Hd).
    split; [exact Hc | exact Hd].
Defined.

(** C10: every invocation ends in one of two ways: it returns the text
    generated by one of its (at most three) attempts, or it rethrows, from
    the handler, the error of its third attempt.  It never reaches the
    [throw] after the loop ("Maximum retry attempts reached."). *)
Theorem C10_fallback_unreachable (g : Globals) (net : Network)
    (text systemPrompt : string) (n : nat) :
  let req := request_of g text systemPrompt in
  let run := executeCloudAiTask g net text systemPrompt n in
  let exit := fst (fst (executeCloudAiTask_exit g net text systemPrompt n)) in
  completion run = completion_of_exit exit /\
  (forall e, exit <> FellThrough e) /\
  ((exists k generated,
       k < 3 /\ exit = Returned k generated /\
       attempt_result net req n k = Normal generated /\
       completion run = Normal generated /\ fetch_count (events run) = S k)
   \/
   (exists e,
       exit = Rethrown 2 e /\ attempt_result net req n 2 = Throw e /\
       completion run = Throw e /\ fetch_count (events run) = 3)).
Proof.
  intros req run exit. subst run exit. unroll_task. fold req.
  destruct (attempt_result net req n 0) as [v0|e0] eqn:H0.
  { cbn. split; [reflexivity|]. split; [discriminate|].
    left. exists 0, v0. repeat split; auto. }
  destruct (attempt_result net req n 1) as [v1|e1] eqn:H1.
  { cbn. split; [reflexivity|]. split; [discriminate|].
    left. exists 1, v1. repeat split; auto. }
  destruct (attempt_result net req n 2) as [v2|e2] eqn:H2.
  { cbn. split; [reflexivity|]. split; [discriminate|].
    left. exists 2, v2. repeat split; auto. }
  cbn. split; [reflexivity|]. split; [discriminate|].
  right. exists e2. repeat split; auto.
Qed.

(** *** One attempt *)

Lemma ok_range (response : Response) :
  ok response = true <-> (200 <= status response <= 299)%N.
Proof.
  unfold ok. rewrite andb_true_iff, !N.leb_le. reflexivity.
Qed.

Lemma truthy_Str (s : string) : truthy (Str s) = true <-> s <> "".
Proof.
  cbn. rewrite negb_true_iff. split.
  - intros H ->. discriminate H.
  - intros H. destruct s; [congruence | reflexivity].
Qed.

Lemma read_response_Normal (outcome : Completion Response) (generated : Value) :
  read_response outcome = Normal generated <->
  exists response result,
    outcome = Normal response /\ ok response = true /\
    json response = Normal result /\
    generatedText_of result = Normal generated /\ truthy generated = true.
Proof.
  unfold read_response. split.
  - destruct outcome as [response|e]; [|discriminate].
    destruct (ok response) eqn:Hok; cbn.
    + destruct (json response) as [result|e] eqn:Hjson; [|discriminate].
      destruct (generatedText_of result) as [v|e] eqn:Hpath; [|discriminate].
      destruct (truthy v) eqn:Hv; [|discriminate].
      intros [= <-]. exists response, result. auto.
    + destruct (text response); discriminate.
  - intros (response & result & -> & Hok & Hjson & Hpath & Hv).
    rewrite Hok, Hjson, Hpath, Hv. reflexivity.
Qed.

(** C4, as the claim words it, fails in two places.  Success does not need
    a text: with the number 5, [true] or an empty object at
    candidates[0].content.parts[0].text the attempt returns that value, and
    so does the invocation, after one call.  And a 2xx response without a
    generated text is not always the "empty or malformed response" failure:
    the body [null] fails with a TypeError, a body that does not parse
    fails with the parser's error. *)
Lemma C4_counterexample :
  generatedText_of (answer_with (Num 5)) = Normal (Num 5) /\
  read_response (respond_with (answer_with (Num 5))) = Normal (Num 5) /\
  read_response (respond_with (answer_with (Bool true))) = Normal (Bool true) /\
  read_response (respond_with (answer_with (Obj []%list))) = Normal (Obj []%list) /\
  executeCloudAiTask (mkGlobals "key") (fun _ _ => respond_with (answer_with (Num 5)))
                     "hello" "Say hi" 0
  = (Normal (Num 5), 1,
     one_attempt (request_of (mkGlobals "key") "hello" "Say hi")) /\
  read_response (respond_with Null)
  = Throw (new_TypeError "Cannot read properties of null (reading 'candidates')") /\
  read_response (Normal (mkResponse 200 (Normal "<html>")
                                    (Throw (mkError "SyntaxError" "Unexpected token"))))
  = Throw (mkError "SyntaxError" "Unexpected token") /\
  new_TypeError "Cannot read properties of null (reading 'candidates')"
  <> new_Error MALFORMED.
Proof. repeat split; discriminate. Qed.

(** C4, amended: an attempt succeeds with a value exactly when the response
    has a status from 200 to 299, its body parses, and the value found at
    candidates[0].content.parts[0].text passes the test of the [if]; the
    value returned is that value.  A string passes exactly when it is not
    empty; [true], every array and every object pass; [null], [undefined],
    [false] and the empty string do not.  A 2xx response that does not
    succeed fails: with the error of [json()] when the body does not parse,
    with a TypeError when the body is [null], and with the "empty or
    malformed response" error when the body parses and the value at the
    path does not pass.  Whatever the error of a failed first or second
    attempt, the next attempt follows after the delay, within the same three
    attempts; the first attempt that succeeds ends the invocation. *)
Theorem C4_success_condition :
  (forall outcome generated,
      read_response outcome = Normal generated <->
      exists response result,
        outcome = Normal response /\
        (200 <= status response <= 299)%N /\
        json response = Normal result /\
        generatedText_of result = Normal generated /\
        truthy generated = true) /\
  (forall outcome s,
      read_response outcome = Normal (Str s) <->
      exists response result,
        outcome = Normal response /\
        (200 <= status response <= 299)%N /\
        json response = Normal result /\
        generatedText_of result = Normal (Str s) /\
        s <> "") /\
  ((forall s, truthy (Str s) = true <-> s <> "") /\
   (forall b, truthy (Bool b) = b) /\
   (forall items, truthy (Arr items) = true) /\
   (forall props, truthy (Obj props) = true) /\
   truthy Null = false /\ truthy Undefined = false) /\
  (forall v parts candidates,
      generatedText_of
        (Obj [("candidates",
               Arr (Obj [("content",
                          Obj [("parts", Arr (Obj [("text", v)] :: parts))])]
                      :: candidates))])
      = Normal v) /\
  (forall response,
      (200 <= status response <= 299)%N ->
      (forall e, json response = Throw e ->
                 read_response (Normal response) = Throw e) /\
      (json response = Normal Null ->
       read_response (Normal response)
       = Throw (new_TypeError "Cannot read properties of null (reading 'candidates')")) /\
      (forall result generated,
          json response = Normal result ->
          generatedText_of result = Normal generated ->
          truthy generated = false ->
          read_response (Normal response) = Throw (new_Error MALFORMED))) /\
  (forall g net text systemPrompt n,
      let req := request_of g text systemPrompt in
      let run := executeCloudAiTask g net text systemPrompt n in
      (forall generated,
          attempt_result net req n 0 = Normal generated ->
          completion run = Normal generated /\ events run = one_attempt req) /\
      (forall e0 generated,
          attempt_result net req n 0 = Throw e0 ->
          attempt_result net req n 1 = Normal generated ->
          completion run = Normal generated /\ events run = two_attempts req) /\
      (forall e0 e1,
          attempt_result net req n 0 = Throw e0 ->
          attempt_result net req n 1 = Throw e1 ->
          completion run = attempt_result net req n 2 /\
          events run = three_attempts req)).
Proof.
  assert (Hiff : forall outcome generated,
             read_response outcome = Normal generated <->
             exists response result,
               outcome = Normal response /\
               (200 <= status response <= 299)%N /\
               json response = Normal result /\
               generatedText_of result = Normal generated /\
               truthy generated = true).
  { intros outcome generated. rewrite read_response_Normal.
    split; intros (response & result & H1 & H2 & H3);
      exists response, result; (split; [exact H1|]);
      (split; [apply ok_range; exact H2 | exact H3]). }
  split; [exact Hiff|].
  split; [|split; [|split; [|split]]].
  - intros outcome s. rewrite Hiff.
    split; intros (response & result & H1 & H2 & H3 & H4 & H5);
      exists response, result; repeat (split; [assumption|]);
      apply truthy_Str; exact H5.
  - split; [exact truthy_Str|]. repeat split.
  - reflexivity.
  - intros response Hok. apply ok_range in Hok. unfold read_response.
    rewrite Hok. cbn [negb]. split; [|split].
    + intros e ->. reflexivity.
    + intros ->. reflexivity.
    + intros result generated -> Hpath Hv. rewrite Hpath, Hv. reflexivity.
  - intros g net text systemPrompt n req run. subst run. unroll_task. fold req.
    split; [|split].
    + intros v H0. rewrite H0. cbn. auto.
    + intros e0 v H0 H1. rewrite H0, H1. cbn. auto.
    + intros e0 e1 H0 H1. rewrite H0, H1.
      destruct (attempt_result net req n 2); cbn; auto.
Qed.

(** The amended C4 at a response that carries a text, at one that carries a
    number, at bodies without a text ([{}], [null], not JSON), and on the
    network whose third answer is the first good one. *)
Lemma C4_witness :
  read_response (respond_with (answer "out")) = Normal (Str "out") /\
  read_response (respond_with (answer_with (Num 5))) = Normal (Num 5) /\
  read_response (respond_with (Obj []%list)) = Throw (new_Error MALFORMED) /\
  read_response (respond_with Null)
  = Throw (new_TypeError "Cannot read properties of null (reading 'candidates')") /\
  read_response (Normal (mkResponse 200 (Normal "<html>")
                                    (Throw (mkError "SyntaxError" "Unexpected token"))))
  = Throw (mkError "SyntaxError" "Unexpected token") /\
  completion (executeCloudAiTask (mkGlobals "key") net_flaky "text" "prompt" 0)
  = Normal (Str "out").
Proof.
  destruct C4_success_condition as (Hiff & Hstr & _ & Hpath & Hfail & Hretry).
  split; [|split; [|split; [|split; [|split]]]].
  - apply Hstr.
    exists (mkResponse 200 (Normal "") (Normal (answer "out"))), (answer "out").
    split; [reflexivity|]. split; [cbn; lia|]. split; [reflexivity|].
    split; [apply Hpath | discriminate].
  - apply Hiff.
    exists (mkResponse 200 (Normal "") (Normal (answer_with (Num 5)))),
           (answer_with (Num 5)).
    split; [reflexivity|]. split; [cbn; lia|]. split; [reflexivity|].
    split; [apply Hpath | reflexivity].
  - refine (proj2 (proj2 (Hfail (mkResponse 200 (Normal "") (Normal (Obj []%list))) _))
                  (Obj []%list) Undefined eq_refl eq_refl eq_refl).
    cbn; lia.
  - refine (proj1 (proj2 (Hfail (mkResponse 200 (Normal "") (Normal Null)) _)) eq_refl).
    cbn; lia.
  - refine (proj1 (Hfail (mkResponse 200 (Normal "<html>")
                            (Throw (mkError "SyntaxError" "Unexpected token"))) _)
                  _ eq_refl).
    cbn; lia.
  - destruct (Hretry (mkGlobals "key") net_flaky "text" "prompt" 0) as (_ & _ & H3).
    destruct (H3 (new_TypeError "Failed to fetch") (new_Error "HTTP error 500: boom")
                 eq_refl eq_refl) as (Hc & _).
    rewrite Hc. reflexivity.
Defined.

(** *** What the handlers send *)

Lemma query_of_request_of (g : Globals) (text systemPrompt : string) :
  query_of (request_of g text systemPrompt)
  = mkModelQuery (Str systemPrompt)
                 (Str ("Original Text: " ++ strip_tags text))
                 (Num 0.2).
Proof. reflexivity. Qed.

Lemma requests_app (a b : list Event) :
  requests (a ++ b)%list = (requests a ++ requests b)%list.
Proof.
  induction a as [|e a IH]; cbn; [reflexivity|].
  destruct e; cbn; rewrite IH; reflexivity.
Qed.

(** Every request of an invocation is the same one, and there is one. *)
Lemma task_requests (g : Globals) (net : Network) (text systemPrompt : string) (n : nat) :
  exists k,
    requests (events (executeCloudAiTask g net text systemPrompt n))
    = repeat (request_of g text systemPrompt) (S k).
Proof.
  unroll_task.
  destruct (attempt_result net _ n 0); [now exists 0|].
  destruct (attempt_result net _ n 1); [now exists 1|].
  destruct (attempt_result net _ n 2); now exists 2.
Qed.

Lemma run_and_report_requests g net tabId selectedText systemPrompt okTitle errTitle n :
  requests (events (run_and_report g net tabId selectedText systemPrompt
                                   okTitle errTitle n))
  = requests (events (executeCloudAiTask g net selectedText systemPrompt n)).
Proof.
  unfold run_and_report, finally, try_catch, bind, events.
  destruct (executeCloudAiTask g net selectedText systemPrompt n) as [[[v|e] n1] evs];
    cbn; rewrite !requests_app; cbn; rewrite ?app_nil_r; reflexivity.
Qed.

Lemma runAiTask_requests g net menuItemId selectedText tabId n :
  requests (events (runAiTask g net menuItemId selectedText tabId n))
  = match template_of menuItemId with
    | Some systemPrompt =>
        requests (events (executeCloudAiTask g net selectedText systemPrompt n))
    | None => []
    end.
Proof.
  unfold runAiTask, run_switch, template_of, finally, try_catch, bind, events.
  destruct (String.eqb menuItemId SUBMENU_SUMMARIZE_ID);
    [|destruct (String.eqb menuItemId SUBMENU_REWRITE_ID);
      [|destruct (String.eqb menuItemId SUBMENU_PROOFREAD_ID)]].
  4: reflexivity.
  all: cbn;
    match goal with
    | |- context [executeCloudAiTask ?g ?net ?t ?p ?n] =>
        destruct (executeCloudAiTask g net t p n) as [[[v|e] n1] evs]
    end;
    cbn; rewrite ?requests_app; cbn; rewrite ?app_nil_r; reflexivity.
Qed.

Lemma truthy_string_true (s : string) : s <> "" -> truthy_string s = true.
Proof. intros H. destruct s; [congruence | reflexivity]. Qed.

Lemma truthy_string_iff (s : string) : truthy_string s = true <-> s <> "".
Proof.
  split; [|apply truthy_string_true].
  intros H ->. discriminate H.
Qed.

Lemma in_repeat_eq {A} (x y : A) (k : nat) : In y (repeat x k) -> y = x.
Proof. intros H. apply repeat_spec in H. exact H. Qed.

Lemma task_requests_nonempty g net text systemPrompt n :
  requests (events (executeCloudAiTask g net text systemPrompt n)) <> [].
Proof.
  destruct (task_requests g net text systemPrompt n) as [k ->]. discriminate.
Qed.

Lemma task_requests_in g net text systemPrompt n req :
  In req (requests (events (executeCloudAiTask g net text systemPrompt n))) ->
  req = request_of g text systemPrompt.
Proof.
  destruct (task_requests g net text systemPrompt n) as [k ->].
  apply in_repeat_eq.
Qed.

(** A click sends either nothing or what [runAiTask] sends. *)
Lemma onClicked_requests g net info tab n :
  requests (events (onClicked g net info tab n)) = [] \/
  exists selectedText,
    selectionText info = Some selectedText /\
    requests (events (onClicked g net info tab n))
    = requests (events (runAiTask g net (menuItemId info) selectedText (id tab) n)).
Proof.
  unfold onClicked.
  destruct (String.eqb (menuItemId info) ACTION_SET_API_KEY); [now left|].
  destruct (selectionText info) as [selectedText|]; [|now left].
  destruct (negb (truthy_string selectedText) || negb (truthy_id (id tab))
            || String.eqb (menuItemId info) AI_TASKS_GROUP); [now left|].
  destruct (negb (truthy_string (GEMINI_API_KEY g))); [now left|].
  destruct (String.eqb (menuItemId info) SUBMENU_CUSTOM_PROMPT_ID); [now left|].
  destruct (String.eqb (menuItemId info) SUBMENU_TRANSLATE_ID); [now left|].
  right. exists selectedText. split; reflexivity.
Qed.

(** With a key, a selection and a tab, a click on one of the three direct
    actions runs the task. *)
Lemma onClicked_direct g net menu template selectedText tab n :
  In (menu, template)
     [(SUBMENU_SUMMARIZE_ID, SUMMARIZE_PROMPT);
      (SUBMENU_REWRITE_ID, REWRITE_PROMPT);
      (SUBMENU_PROOFREAD_ID, PROOFREAD_PROMPT)] ->
  GEMINI_API_KEY g <> "" -> selectedText <> "" -> truthy_id (id tab) = true ->
  onClicked g net (mkOnClickData menu (Some selectedText)) tab n
  = runAiTask g net menu selectedText (id tab) n /\
  template_of menu = Some template.
Proof.
  intros Hin Hkey Hsel Htab. unfold onClicked. cbn [menuItemId selectionText].
  rewrite (truthy_string_true _ Hkey), (truthy_string_true _ Hsel), Htab.
  destruct Hin as [[= <- <-]|[[= <- <-]|[[= <- <-]|[]]]]; split; reflexivity.
Qed.

(** *** The instructions *)

(** C5: for Summarize, Rewrite and Proofread, a click with any non-empty
    selected text sends a query whose instruction is the action's fixed
    template, the same character for character whatever the text; the
    Proofread template asks for the corrected text first and for the
    bulleted list of changes second. *)
Theorem C5_fixed_templates (g : Globals) (net : Network) (tab : Tab) (n : nat)
    (menu template selectedText : string) :
  In (menu, template)
     [(SUBMENU_SUMMARIZE_ID, SUMMARIZE_PROMPT);
      (SUBMENU_REWRITE_ID, REWRITE_PROMPT);
      (SUBMENU_PROOFREAD_ID, PROOFREAD_PROMPT)] ->
  GEMINI_API_KEY g <> "" -> selectedText <> "" -> truthy_id (id tab) = true ->
  let sent :=
    requests (events (onClicked g net (mkOnClickData menu (Some selectedText)) tab n)) in
  sent <> [] /\
  (forall req, In req sent -> instruction (query_of req) = Str template) /\
  SUMMARIZE_PROMPT
  = "You are an expert summarizer. Provide the key points from the context as a short, concise, bulleted list using markdown format." /\
  REWRITE_PROMPT
  = "Rewrite the following text to simplify it for a 5th-grade reading level. Keep the length similar." /\
  PROOFREAD_PROMPT
  = "Proofread the text provided. " ++
    "First, output the fully corrected text. " ++
    "Second, list all significant changes made (grammar, spelling, syntax) in a bulleted list format." /\
  String.index 0 "First, output the fully corrected text." PROOFREAD_PROMPT = Some 29 /\
  String.index 0 "Second, list all significant changes made" PROOFREAD_PROMPT = Some 69 /\
  String.index 0 "in a bulleted list format." PROOFREAD_PROMPT = Some 139.
Proof.
  intros Hin Hkey Hsel Htab sent. subst sent.
  destruct (onClicked_direct g net menu template selectedText tab n Hin Hkey Hsel Htab)
    as [-> Htemplate].
  rewrite runAiTask_requests, Htemplate.
  split; [apply task_requests_nonempty|].
  split.
  - intros req Hreq. apply task_requests_in in Hreq. subst req.
    rewrite query_of_request_of. reflexivity.
  - repeat split; vm_compute; reflexivity.
Qed.

(** C5 for a click on Proofread. *)
Lemma C5_witness :
  let sent :=
    requests (events (onClicked (mkGlobals "key") net_up
                        (mkOnClickData SUBMENU_PROOFREAD_ID (Some "teh text"))
                        (mkTab (Some 7%N)) 0)) in
  sent <> [] /\
  Forall (fun req => instruction (query_of req) = Str PROOFREAD_PROMPT) sent.
Proof.
  assert (Hin : In (SUBMENU_PROOFREAD_ID, PROOFREAD_PROMPT)
                   [(SUBMENU_SUMMARIZE_ID, SUMMARIZE_PROMPT);
                    (SUBMENU_REWRITE_ID, REWRITE_PROMPT);
                    (SUBMENU_PROOFREAD_ID, PROOFREAD_PROMPT)])
    by (right; right; left; reflexivity).
  assert (Hkey : GEMINI_API_KEY (mkGlobals "key") <> "") by discriminate.
  assert (Hsel : "teh text" <> "") by discriminate.
  destruct (C5_fixed_templates (mkGlobals "key") net_up (mkTab (Some 7%N)) 0
              SUBMENU_PROOFREAD_ID PROOFREAD_PROMPT "teh text"
              Hin Hkey Hsel eq_refl) as (Hne & Hall & _).
  split; [exact Hne | apply Forall_forall; exact Hall].
Defined.

Lemma starts_with_app (p rest : string) : starts_with p (p ++ rest) = true.
Proof.
  induction p as [|c p IH]; cbn; [reflexivity|].
  rewrite Ascii.eqb_refl. exact IH.
Qed.

Lemma includes_app (a p rest : string) : includes (a ++ p ++ rest) p = true.
Proof.
  induction a as [|c a IH]; cbn.
  - destruct (p ++ rest) eqn:E; cbn; rewrite <- E, starts_with_app; reflexivity.
  - rewrite IH. apply orb_true_r.
Qed.

Lemma append_assoc' (a b c : string) : (a ++ b) ++ c = a ++ b ++ c.
Proof. induction a as [|x a IH]; cbn; [reflexivity | now rewrite IH]. Qed.

Lemma onMessage_requests g net request sender n :
  truthy_id (id sender) = true ->
  requests (events (onMessage g net request sender n))
  = match request with
    | runCustomPrompt selectedText customPrompt =>
        requests (events (executeCloudAiTask g net selectedText customPrompt (n)))
    | runTranslation selectedText targetLanguage =>
        requests (events (executeCloudAiTask g net selectedText
                                             (translation_prompt targetLanguage) n))
    | saveApiKey _ => []
    end.
Proof.
  intros Htab. unfold onMessage. rewrite Htab.
  destruct request as [apiKey|selectedText customPrompt|selectedText targetLanguage];
    [reflexivity| |].
  - rewrite <- (run_and_report_requests g net (id sender) selectedText customPrompt
                  "Custom Prompt Result" "Prompt Error" n).
    unfold bind, injectProcessingModal, emit, events.
    destruct (run_and_report _ _ _ _ _ _ _ n) as [[r n1] evs]. reflexivity.
  - rewrite <- (run_and_report_requests g net (id sender) selectedText
                  (translation_prompt targetLanguage)
                  ("Translation: " ++ targetLanguage) "Translation Error" n).
    unfold bind, injectProcessingModal, emit, events.
    destruct (run_and_report _ _ _ _ _ _ _ n) as [[r n1] evs]. reflexivity.
Qed.

(** C8: the instruction of a Translate query contains the target language
    as given and the words "provide only the translated text as the
    output"; the instruction of a CustomPrompt query is the prompt as given,
    nothing added. *)
Theorem C8_parametric_instructions (g : Globals) (net : Network) (sender : Tab)
    (selectedText parameter : string) (n : nat) :
  truthy_id (id sender) = true ->
  let translate :=
    requests (events (onMessage g net (runTranslation selectedText parameter) sender n)) in
  let custom :=
    requests (events (onMessage g net (runCustomPrompt selectedText parameter) sender n)) in
  (translate <> [] /\
   forall req, In req translate ->
     exists instr,
       instruction (query_of req) = Str instr /\
       instr = "You are an expert translator. Translate the following text strictly into "
                 ++ parameter ++ " and provide only the translated text as the output." /\
       includes instr parameter = true /\
       includes instr "provide only the translated text as the output" = true) /\
  (custom <> [] /\
   forall req, In req custom -> instruction (query_of req) = Str parameter).
Proof.
  intros Htab translate custom. subst translate custom.
  rewrite !(onMessage_requests _ _ _ _ _ Htab).
  split; (split; [apply task_requests_nonempty|]); intros req Hreq;
    apply task_requests_in in Hreq; subst req; rewrite query_of_request_of.
  - exists (translation_prompt parameter). split; [reflexivity|].
    split; [reflexivity|]. split.
    + apply includes_app.
    + unfold translation_prompt.
      change (" and provide only the translated text as the output.")
        with (" and " ++ "provide only the translated text as the output" ++ ".").
      rewrite <- !append_assoc'. rewrite append_assoc'. apply includes_app.
  - reflexivity.
Qed.

(** C8 for a translation into French and for a custom prompt. *)
Lemma C8_witness :
  Forall (fun req =>
            instruction (query_of req)
            = Str "You are an expert translator. Translate the following text strictly into French and provide only the translated text as the output.")
         (requests (events (onMessage (mkGlobals "key") net_up
                              (runTranslation "hello" "French") (mkTab (Some 7%N)) 0))) /\
  Forall (fun req => instruction (query_of req) = Str "French")
         (requests (events (onMessage (mkGlobals "key") net_up
                              (runCustomPrompt "hello" "French") (mkTab (Some 7%N)) 0))).
Proof.
  destruct (C8_parametric_instructions (mkGlobals "key") net_up (mkTab (Some 7%N))
              "hello" "French" 0 eq_refl) as ((_ & Htr) & (_ & Hcp)).
  split; apply Forall_forall; intros req Hreq.
  - destruct (Htr req Hreq) as (instr & -> & -> & _). reflexivity.
  - exact (Hcp req Hreq).
Defined.

(** *** The request body *)

(** C7, as the claim words it, fails: the user level content is not the
    sanitized text itself.  For the selection "hello" (which sanitization
    leaves as it is) the content sent is "Original Text: hello". *)
Lemma C7_counterexample :
  let sent := requests (events (executeCloudAiTask (mkGlobals "key") net_up
                                  "hello" SUMMARIZE_PROMPT 0)) in
  strip_tags "hello" = "hello" /\
  map (fun req => content (query_of req)) sent = [Str "Original Text: hello"] /\
  ~ Forall (fun req => content (query_of req) = Str (strip_tags "hello")) sent.
Proof.
  split; [reflexivity|]. split; [reflexivity|].
  intros H. inversion H as [|req rest Hreq _]. discriminate Hreq.
Qed.

(** C7, amended: in every request the instruction is the system level
    directive, the user level content is the label "Original Text: "
    followed by the sanitized source text, and the temperature is 0.2; this
    holds for the three direct actions (through a click) and for Translate
    and CustomPrompt (through their message). *)
Theorem C7_request_body (g : Globals) (net : Network) (n : nat) :
  (forall text systemPrompt req,
      In req (requests (events (executeCloudAiTask g net text systemPrompt n))) ->
      query_of req = {| instruction := Str systemPrompt;
                        content := Str ("Original Text: " ++ strip_tags text);
                        temperature := Num 0.2 |}) /\
  (forall info tab req,
      In req (requests (events (onClicked g net info tab n))) ->
      exists selectedText systemPrompt,
        selectionText info = Some selectedText /\
        template_of (menuItemId info) = Some systemPrompt /\
        query_of req = {| instruction := Str systemPrompt;
                          content := Str ("Original Text: " ++ strip_tags selectedText);
                          temperature := Num 0.2 |}) /\
  (forall selectedText parameter sender req,
      (In req (requests (events (onMessage g net
                                   (runTranslation selectedText parameter) sender n))) ->
       query_of req = {| instruction := Str (translation_prompt parameter);
                         content := Str ("Original Text: " ++ strip_tags selectedText);
                         temperature := Num 0.2 |}) /\
      (In req (requests (events (onMessage g net
                                   (runCustomPrompt selectedText parameter) sender n))) ->
       query_of req = {| instruction := Str parameter;
                         content := Str ("Original Text: " ++ strip_tags selectedText);
                         temperature := Num 0.2 |})).
Proof.
  split; [|split].
  - intros text systemPrompt req Hreq. apply task_requests_in in Hreq. subst req.
    apply query_of_request_of.
  - intros info tab req Hreq.
    destruct (onClicked_requests g net info tab n) as [Hnone|(selectedText & Hsel & Hsent)].
    + rewrite Hnone in Hreq. destruct Hreq.
    + rewrite Hsent, runAiTask_requests in Hreq.
      destruct (template_of (menuItemId info)) as [systemPrompt|]; [|destruct Hreq].
      exists selectedText, systemPrompt. split; [exact Hsel|]. split; [reflexivity|].
      apply task_requests_in in Hreq. subst req. apply query_of_request_of.
  - intros selectedText parameter sender req.
    destruct (truthy_id (id sender)) eqn:Htab.
    + rewrite !(onMessage_requests _ _ _ _ _ Htab).
      split; intros Hreq; apply task_requests_in in Hreq; subst req;
        apply query_of_request_of.
    + unfold onMessage. rewrite Htab. split; intros [].
Qed.

(** C7 on a request for a summary of marked-up text. *)
Lemma C7_witness :
  Forall (fun req =>
            query_of req = {| instruction := Str SUMMARIZE_PROMPT;
                              content := Str "Original Text: hello world";
                              temperature := Num 0.2 |})
         (requests (events (executeCloudAiTask (mkGlobals "key") net_up
                              "<b>hello</b> <i>world</i>" SUMMARIZE_PROMPT 0))).
Proof.
  apply Forall_forall. intros req Hreq.
  rewrite (proj1 (C7_request_body (mkGlobals "key") net_up 0) _ _ req Hreq).
  reflexivity.
Defined.

(** *** Sanitization before the query *)



(** *** The credential guard *)

(** C1, as the claim words it, fails: [executeCloudAiTask] has no guard of
    its own.  With the empty key it calls the endpoint (the URL ends in
    "key=") and returns what the endpoint answers; a translation message
    that reaches the listener while the key is empty makes three calls on a
    network that rejects them. *)
Lemma C1_counterexample :
  GEMINI_API_KEY initial = "" /\
  completion (executeCloudAiTask initial net_up "hello" "Say hi" 0) = Normal (Str "out") /\
  map url (requests (events (executeCloudAiTask initial net_up "hello" "Say hi" 0)))
  = ["https://generativelanguage.googleapis.com/v1beta/models/gemini-2.5-flash-preview-05-20:generateContent?key="]%list /\
  fetch_count (events (onMessage initial net_denied (runTranslation "hello" "French")
                                 (mkTab (Some 7%N)) 0)) = 3 /\
  fetch_count (events (onMessage initial net_denied (runCustomPrompt "hello" "Say hi")
                                 (mkTab (Some 7%N)) 0)) = 3.
Proof. repeat split. Qed.

(** C1, amended: with an empty key a click on a menu item never calls the
    endpoint; for each of the five task items, Translate and CustomPrompt
    included, with text selected in a tab, the click does one thing only:
    it shows "Configuration Required".  The guard is in the click
    listener. *)
Theorem C1_click_guard (g : Globals) (net : Network) (info : OnClickData)
    (tab : Tab) (n : nat) :
  GEMINI_API_KEY g = "" ->
  let run := onClicked g net info tab n in
  fetch_count (events run) = 0 /\
  completion run = Normal tt /\
  (forall selectedText,
      selectionText info = Some selectedText -> selectedText <> "" ->
      truthy_id (id tab) = true ->
      In (menuItemId info) task_items ->
      events run = [ExecuteScript (id tab)
                      (displayResultModal (Str "Configuration Required")
                                          (Str CONFIGURATION_REQUIRED))]%list).
Proof.
  intros Hkey run. subst run. unfold onClicked. rewrite Hkey.
  destruct (String.eqb (menuItemId info) ACTION_SET_API_KEY) eqn:Hset.
  { split; [reflexivity|]. split; [reflexivity|].
    intros selectedText _ _ _ Hin. apply String.eqb_eq in Hset.
    rewrite Hset in Hin. cbv in Hin.
    repeat (destruct Hin as [Hin|Hin]; [discriminate Hin|]). destruct Hin. }
  destruct (selectionText info) as [selectedText|].
  2: { split; [reflexivity|]. split; [reflexivity|]. intros s [=]. }
  destruct (truthy_string selectedText) eqn:Hsel; cbn [negb orb].
  2: { split; [reflexivity|]. split; [reflexivity|].
       intros s [= <-] Hs. apply truthy_string_true in Hs. congruence. }
  destruct (truthy_id (id tab)) eqn:Htab; cbn [negb orb].
  2: { split; [reflexivity|]. split; [reflexivity|]. intros s _ _ [=]. }
  destruct (String.eqb (menuItemId info) AI_TASKS_GROUP) eqn:Hgroup.
  { split; [reflexivity|]. split; [reflexivity|].
    intros s _ _ _ Hin. apply String.eqb_eq in Hgroup.
    rewrite Hgroup in Hin. cbv in Hin.
    repeat (destruct Hin as [Hin|Hin]; [discriminate Hin|]). destruct Hin. }
  cbn. split; [reflexivity|]. split; [reflexivity|]. reflexivity.
Qed.

(** C1 for a click on "Translate to..." before any key is set. *)
Lemma C1_witness :
  let run := onClicked initial net_up
               (mkOnClickData SUBMENU_TRANSLATE_ID (Some "hello")) (mkTab (Some 7%N)) 0 in
  fetch_count (events run) = 0 /\
  events run = [ExecuteScript (Some 7%N)
                  (displayResultModal (Str "Configuration Required")
                                      (Str CONFIGURATION_REQUIRED))]%list.
Proof.
  destruct (C1_click_guard initial net_up
              (mkOnClickData SUBMENU_TRANSLATE_ID (Some "hello")) (mkTab (Some 7%N)) 0
              eq_refl) as (Hnone & _ & Hshow).
  split; [exact Hnone|].
  apply (Hshow "hello"); [reflexivity | discriminate | reflexivity |].
  right. right. right. left. reflexivity.
Defined.

(** *** The empty parameter *)

(** C3, as the claim words it, fails: the listener does not check the
    parameter.  A translation message with the empty target language makes
    the call, with an instruction that names no language, and reports the
    answer as a success. *)
Lemma C3_counterexample :
  let run := onMessage (mkGlobals "key") net_up (runTranslation "hello" "")
                       (mkTab (Some 7%N)) 0 in
  fetch_count (events run) = 1 /\
  map (fun req => instruction (query_of req)) (requests (events run))
  = [Str "You are an expert translator. Translate the following text strictly into  and provide only the translated text as the output."]%list /\
  In (ExecuteScript (Some 7%N) (displayResultModal (Str "Translation: ") (Str "out")))
     (events run) /\
  In (SendResponse status_success) (events run) /\
  fetch_count (events (onMessage (mkGlobals "key") net_up (runCustomPrompt "hello" "")
                                 (mkTab (Some 7%N)) 0)) = 1.
Proof.
  cbv zeta. split; [reflexivity|]. split; [reflexivity|].
  split; [vm_compute; auto 10|]. split; [vm_compute; auto 10|]. reflexivity.
Qed.

(** C3, amended: when the text entered in the Translate modal, or in the
    CustomPrompt modal, is empty once trimmed, the submit button only shows
    an alert: no message goes to the worker and no call is made.  The check
    is in the modal, not in the worker's listener. *)
Theorem C3_modal_rejects_empty (g : Globals) (net : Network) (sender : Tab)
    (selectedText value : string) (n : nat) :
  trim value = "" ->
  (Page.translate_submit_onclick selectedText value
   = [Page.alert "Please enter a target language."]%list /\
   events (Page.deliver g net sender
             (Page.translate_submit_onclick selectedText value) n) = []%list) /\
  (Page.prompt_submit_onclick selectedText value
   = [Page.alert "Please enter a custom instruction."]%list /\
   events (Page.deliver g net sender
             (Page.prompt_submit_onclick selectedText value) n) = []%list).
Proof.
  intros Hempty.
  unfold Page.translate_submit_onclick, Page.prompt_submit_onclick.
  rewrite Hempty. cbn. repeat split.
Qed.

(** C3 for an input of blanks. *)
Lemma C3_witness :
  events (Page.deliver (mkGlobals "key") net_up (mkTab (Some 7%N))
            (Page.translate_submit_onclick "hello" "   ") 0) = []%list /\
  events (Page.deliver (mkGlobals "key") net_up (mkTab (Some 7%N))
            (Page.prompt_submit_onclick "hello" "   ") 0) = []%list.
Proof.
  destruct (C3_modal_rejects_empty (mkGlobals "key") net_up (mkTab (Some 7%N))
              "hello" "   " 0 eq_refl) as ((_ & Ht) & (_ & Hp)).
  split; [exact Ht | exact Hp].
Defined.

(** What the modals do send: the trimmed input, which is not empty. *)
Lemma modal_sends_non_empty (selectedText value : string) (m : Message) :
  In (Page.sendMessage m) (Page.translate_submit_onclick selectedText value) \/
  In (Page.sendMessage m) (Page.prompt_submit_onclick selectedText value) ->
  trim value <> "" /\
  (m = runTranslation selectedText (trim value) \/
   m = runCustomPrompt selectedText (trim value)).
Proof.
  unfold Page.translate_submit_onclick, Page.prompt_submit_onclick.
  destruct (truthy_string (trim value)) eqn:Hv.
  - apply truthy_string_iff in Hv.
    intros [[[= <-]|[[=]|[]]]|[[= <-]|[[=]|[]]]]; auto.
  - intros [[[=]|[]]|[[=]|[]]].
Qed.

(* ===================================================================== *)
(** ** Further properties of the worker *)
(* ===================================================================== *)

(** *** Runs of the handlers *)

Lemma result_modals_app (a b : list Event) :
  result_modals (a ++ b)%list = (result_modals a ++ result_modals b)%list.
Proof.
  induction a as [|e a IH]; cbn; [reflexivity|].
  destruct e as [| | t s | |]; try exact IH.
  destruct s; cbn; rewrite ?IH; reflexivity.
Qed.

Lemma responses_app (a b : list Event) :
  responses (a ++ b)%list = (responses a ++ responses b)%list.
Proof.
  induction a as [|e a IH]; cbn; [reflexivity|].
  destruct e; cbn; rewrite ?IH; reflexivity.
Qed.

(** An invocation only calls the endpoint and waits. *)
Lemma task_events_quiet g net text systemPrompt n :
  result_modals (events (executeCloudAiTask g net text systemPrompt n)) = []%list /\
  responses (events (executeCloudAiTask g net text systemPrompt n)) = []%list.
Proof.
  unroll_task.
  destruct (attempt_result net _ n 0); [split; reflexivity|].
  destruct (attempt_result net _ n 1); [split; reflexivity|].
  destruct (attempt_result net _ n 2); split; reflexivity.
Qed.

(** X1: a direct task (Summarize, Rewrite, Proofread) first shows the
    processing indicator, then runs the invocation, then shows one result
    modal -- the generated text under the action's title, or "Cloud AI
    Error" with "Error: " and the error's message (a fixed text when the
    message is empty) after logging the error -- and last of all removes
    the processing indicator. *)
Theorem X1_runAiTask_trace (g : Globals) (net : Network) (tabId : option N) (n : nat)
    (menu template title selectedText : string) :
  In (menu, template, title) direct_actions ->
  let task := executeCloudAiTask g net selectedText template n in
  events (runAiTask g net menu selectedText tabId n)
  = ([ExecuteScript tabId (showProcessingModal "Querying Cloud AI...")]
       ++ events task
       ++ match completion task with
          | Normal generated =>
              [ExecuteScript tabId (displayResultModal (Str title) generated)]
          | Throw error =>
              [ConsoleError ("AI Task Error for " ++ menu ++ ":") error;
               ExecuteScript tabId
                 (displayResultModal
                    (Str "Cloud AI Error")
                    (Str ("Error: " ++
                          if truthy_string (message error) then message error
                          else "API request failed. Check your API key and connection.")))]
          end
       ++ [ExecuteScript tabId removeProcessingModal])%list.
Proof.
  intros Hin task. subst task.
  unfold runAiTask, run_switch, finally, try_catch, bind, events, completion.
  destruct Hin as [[= <- <- <-]|[[= <- <- <-]|[[= <- <- <-]|[]]]]; cbn;
    match goal with
    | |- context [executeCloudAiTask ?g ?net ?t ?p ?n] =>
        destruct (executeCloudAiTask g net t p n) as [[[v|e] n1] evs]
    end; cbn; rewrite ?app_nil_r, <- ?app_assoc; reflexivity.
Qed.

(** X1 for a summary on a network that is up, and on one that rejects the
    key. *)
Lemma X1_witness :
  result_modals (events (runAiTask (mkGlobals "key") net_up SUBMENU_SUMMARIZE_ID
                                   "hello" (Some 7%N) 0))
  = [(Str "AI Summary (Key Points)", Str "out")]%list /\
  result_modals (events (runAiTask (mkGlobals "key") net_denied SUBMENU_SUMMARIZE_ID
                                   "hello" (Some 7%N) 0))
  = [(Str "Cloud AI Error", Str "Error: HTTP error 403: denied")]%list.
Proof.
  assert (Hin : In (SUBMENU_SUMMARIZE_ID, SUMMARIZE_PROMPT, "AI Summary (Key Points)")
                   direct_actions) by (left; reflexivity).
  split.
  - rewrite (X1_runAiTask_trace (mkGlobals "key") net_up (Some 7%N) 0 _ _ _ "hello" Hin).
    reflexivity.
  - rewrite (X1_runAiTask_trace (mkGlobals "key") net_denied (Some 7%N) 0 _ _ _ "hello" Hin).
    reflexivity.
Defined.

(** X2: whatever the menu item, network and text, [runAiTask] shows the
    processing indicator first, removes it last, and shows exactly one
    result modal in between. *)
Theorem X2_runAiTask_brackets (g : Globals) (net : Network)
    (menu selectedText : string) (tabId : option N) (n : nat) :
  let evs := events (runAiTask g net menu selectedText tabId n) in
  (exists middle,
      evs = (ExecuteScript tabId (showProcessingModal "Querying Cloud AI...")
               :: middle ++ [ExecuteScript tabId removeProcessingModal])%list) /\
  List.length (result_modals evs) = 1 /\
  completion (runAiTask g net menu selectedText tabId n) = Normal tt.
Proof.
  cbv zeta.
  unfold runAiTask, run_switch, finally, try_catch, bind, events, completion.
  destruct (String.eqb menu SUBMENU_SUMMARIZE_ID);
    [|destruct (String.eqb menu SUBMENU_REWRITE_ID);
      [|destruct (String.eqb menu SUBMENU_PROOFREAD_ID)]].
  4: { cbn. split; [|split; reflexivity].
       exists [ExecuteScript tabId (displayResultModal Undefined Undefined)]%list.
       reflexivity. }
  all: cbn;
    match goal with
    | |- context [executeCloudAiTask ?g ?net ?t ?p ?n] =>
        pose proof (task_events_quiet g net t p n) as [Hq _];
        destruct (executeCloudAiTask g net t p n) as [[[v|e] n1] evs]
    end; cbn in *; (split; [|split; [|reflexivity]]).
  all: rewrite ?app_nil_r.
  all: try (rewrite !result_modals_app, Hq; reflexivity).
  all: match goal with
       | |- exists _, _ :: (?l ++ ?m)%list ++ ?z = _ => exists (l ++ m)%list; reflexivity
       | |- exists _, _ :: (?l ++ ?m ++ ?z)%list = _ => exists (l ++ m)%list; rewrite <- app_assoc; reflexivity
       | |- _ => idtac
       end.

Qed.

(** X3: for a message from a tab, the listener shows the processing
    indicator, runs the invocation, then shows the result under the
    action's title and answers "success", or shows the error's message as
    it is, under the action's error title, and answers "error" with that
    message; last of all it removes the processing indicator. *)
Theorem X3_onMessage_trace (g : Globals) (net : Network) (sender : Tab) (n : nat)
    (selectedText parameter : string) :
  truthy_id (id sender) = true ->
  let translate :=
    executeCloudAiTask g net selectedText (translation_prompt parameter) n in
  let custom := executeCloudAiTask g net selectedText parameter n in
  events (onMessage g net (runTranslation selectedText parameter) sender n)
  = ([ExecuteScript (id sender)
        (showProcessingModal ("Translating to " ++ parameter ++ "..."))]
       ++ events translate
       ++ match completion translate with
          | Normal generated =>
              [ExecuteScript (id sender)
                 (displayResultModal (Str ("Translation: " ++ parameter)) generated);
               SendResponse (Obj [("status", Str "success")])]
          | Throw error =>
              [ExecuteScript (id sender)
                 (displayResultModal (Str "Translation Error") (Str (message error)));
               SendResponse (Obj [("status", Str "error");
                                  ("message", Str (message error))])]
          end
       ++ [ExecuteScript (id sender) removeProcessingModal])%list /\
  events (onMessage g net (runCustomPrompt selectedText parameter) sender n)
  = ([ExecuteScript (id sender) (showProcessingModal "Running Custom Prompt...")]
       ++ events custom
       ++ match completion custom with
          | Normal generated =>
              [ExecuteScript (id sender)
                 (displayResultModal (Str "Custom Prompt Result") generated);
               SendResponse (Obj [("status", Str "success")])]
          | Throw error =>
              [ExecuteScript (id sender)
                 (displayResultModal (Str "Prompt Error") (Str (message error)));
               SendResponse (Obj [("status", Str "error");
                                  ("message", Str (message error))])]
          end
       ++ [ExecuteScript (id sender) removeProcessingModal])%list.
Proof.
  intros Htab translate custom. subst translate custom.
  unfold onMessage, run_and_report, finally, try_catch, bind, events, completion.
  rewrite Htab. cbn.
  split;
    match goal with
    | |- context [executeCloudAiTask ?g ?net ?t ?p ?n] =>
        destruct (executeCloudAiTask g net t p n) as [[[v|e] n1] evs]
    end; cbn; rewrite ?app_nil_r, <- ?app_assoc; reflexivity.
Qed.

(** X3 for a translation that succeeds and a custom prompt that fails. *)
Lemma X3_witness :
  (result_modals (events (onMessage (mkGlobals "key") net_up
                            (runTranslation "hello" "French") (mkTab (Some 7%N)) 0))
   = [(Str "Translation: French", Str "out")]%list /\
   responses (events (onMessage (mkGlobals "key") net_up
                        (runTranslation "hello" "French") (mkTab (Some 7%N)) 0))
   = [Obj [("status", Str "success")]]%list) /\
  (result_modals (events (onMessage (mkGlobals "key") net_denied
                            (runCustomPrompt "hello" "Say hi") (mkTab (Some 7%N)) 0))
   = [(Str "Prompt Error", Str "HTTP error 403: denied")]%list /\
   responses (events (onMessage (mkGlobals "key") net_denied
                        (runCustomPrompt "hello" "Say hi") (mkTab (Some 7%N)) 0))
   = [Obj [("status", Str "error"); ("message", Str "HTTP error 403: denied")]]%list).
Proof.
  destruct (X3_onMessage_trace (mkGlobals "key") net_up (mkTab (Some 7%N)) 0
              "hello" "French" eq_refl) as [Ht _].
  destruct (X3_onMessage_trace (mkGlobals "key") net_denied (mkTab (Some 7%N)) 0
              "hello" "Say hi" eq_refl) as [_ Hc].
  split; [rewrite Ht | rewrite Hc]; split; reflexivity.
Defined.

Lemma run_and_report_responses g net tabId selectedText systemPrompt okTitle errTitle n :
  List.length (responses (events (run_and_report g net tabId selectedText systemPrompt
                                                 okTitle errTitle n))) = 1.
Proof.
  unfold run_and_report, finally, try_catch, bind, events.
  pose proof (task_events_quiet g net selectedText systemPrompt n) as [_ Hq].
  unfold events in Hq.
  destruct (executeCloudAiTask g net selectedText systemPrompt n) as [[[v|e] n1] evs];
    cbn in *; rewrite !responses_app, Hq; reflexivity.
Qed.

(** X4: the listener answers a translation or custom prompt message from a
    tab exactly once; a message whose sender has no tab id (none, or 0)
    causes nothing at all -- no call, no modal, no answer -- and so does a
    save-key message. *)
Theorem X4_onMessage_answers (g : Globals) (net : Network) (request : Message)
    (sender : Tab) (n : nat) :
  let evs := events (onMessage g net request sender n) in
  List.length (responses evs)
  = match request with
    | saveApiKey _ => 0
    | _ => if truthy_id (id sender) then 1 else 0
    end /\
  (match request with
   | saveApiKey _ => True
   | _ => truthy_id (id sender) = false
   end -> evs = []%list) /\
  (forall apiKey, request = saveApiKey apiKey -> evs = []%list).
Proof.
  cbv zeta. split; [|split].
  - destruct request as [apiKey|s p|s p]; [reflexivity| |];
      (destruct (truthy_id (id sender)) eqn:Htab;
       unfold onMessage; rewrite Htab; [|reflexivity]);
      unfold bind, injectProcessingModal, emit, events;
      match goal with
      | |- context [run_and_report ?g ?net ?t ?s ?p ?a ?b ?n] =>
          pose proof (run_and_report_responses g net t s p a b n) as Hr;
          unfold events in Hr;
          destruct (run_and_report g net t s p a b n) as [[r n1] evs]
      end; cbn in *; exact Hr.
  - destruct request as [apiKey|s p|s p]; [reflexivity| |];
      intros Htab; unfold onMessage; rewrite Htab; reflexivity.
  - intros apiKey ->. reflexivity.
Qed.

(** *** Clicks *)

(** X5: a click on any item but "Set Gemini API Key" causes nothing at all
    -- no modal, no call, not even the "Configuration Required" notice --
    when no text is selected, when the selection is empty, when the tab has
    no id, or when the item is the parent "Cloud AI Tasks". *)
Theorem X5_ignored_clicks (g : Globals) (net : Network) (info : OnClickData)
    (tab : Tab) (n : nat) :
  menuItemId info <> ACTION_SET_API_KEY ->
  selectionText info = None \/ selectionText info = Some "" \/
  truthy_id (id tab) = false \/ menuItemId info = AI_TASKS_GROUP ->
  onClicked g net info tab n = (Normal tt, n, []%list).
Proof.
  intros Hset Hcase. unfold onClicked.
  apply String.eqb_neq in Hset. rewrite Hset.
  destruct (selectionText info) as [selectedText|]; [|reflexivity].
  destruct Hcase as [[=]|[[= ->]|[Htab|Hgroup]]].
  - reflexivity.
  - rewrite Htab. destruct (truthy_string selectedText); reflexivity.
  - rewrite Hgroup, String.eqb_refl, !orb_true_r. reflexivity.
Qed.

(** X5 for a click on "Summarize" with nothing selected and no key set. *)
Lemma X5_witness :
  onClicked initial net_up (mkOnClickData SUBMENU_SUMMARIZE_ID None) (mkTab (Some 7%N)) 0
  = (Normal tt, 0, []%list).
Proof.
  apply X5_ignored_clicks; [discriminate | left; reflexivity].
Defined.

(** X6: with a key set, text selected and a tab, a click on "Translate
    to..." or "Custom Prompt..." removes the processing indicator and opens
    the parameter modal with the selected text as it is (not sanitized); it
    calls the endpoint zero times.  A click on "Set Gemini API Key" opens
    the key modal whatever the key, the selection and the tab. *)
Theorem X6_modal_clicks (g : Globals) (net : Network) (selectedText : string)
    (tab : Tab) (n : nat) :
  GEMINI_API_KEY g <> "" -> selectedText <> "" -> truthy_id (id tab) = true ->
  onClicked g net (mkOnClickData SUBMENU_TRANSLATE_ID (Some selectedText)) tab n
  = (Normal tt, n,
     [ExecuteScript (id tab) removeProcessingModal;
      ExecuteScript (id tab) (showTranslationModal selectedText)]%list) /\
  onClicked g net (mkOnClickData SUBMENU_CUSTOM_PROMPT_ID (Some selectedText)) tab n
  = (Normal tt, n,
     [ExecuteScript (id tab) removeProcessingModal;
      ExecuteScript (id tab) (showPromptModal selectedText)]%list) /\
  forall g' selection tab',
    onClicked g' net (mkOnClickData ACTION_SET_API_KEY selection) tab' n
    = (Normal tt, n, [ExecuteScript (id tab') showApiKeyModal]%list).
Proof.
  intros Hkey Hsel Htab. unfold onClicked. cbn [menuItemId selectionText].
  rewrite (truthy_string_true _ Hkey), (truthy_string_true _ Hsel), Htab.
  split; [reflexivity|]. split; reflexivity.
Qed.

(** X6 for a selection that contains markup. *)
Lemma X6_witness :
  events (onClicked (mkGlobals "key") net_up
            (mkOnClickData SUBMENU_TRANSLATE_ID (Some "<b>hello</b>"))
            (mkTab (Some 7%N)) 0)
  = [ExecuteScript (Some 7%N) removeProcessingModal;
     ExecuteScript (Some 7%N) (showTranslationModal "<b>hello</b>")]%list.
Proof.
  assert (Hkey : GEMINI_API_KEY (mkGlobals "key") <> "") by discriminate.
  assert (Hsel : "<b>hello</b>" <> "") by discriminate.
  rewrite (proj1 (X6_modal_clicks (mkGlobals "key") net_up "<b>hello</b>"
                    (mkTab (Some 7%N)) 0 Hkey Hsel eq_refl)).
  reflexivity.
Defined.

(** *** From the modal to the endpoint *)

Lemma deliver_one g net sender m effect n :
  requests (events (Page.deliver g net sender [Page.sendMessage m; effect] n))
  = requests (events (onMessage g net m sender n)) \/ exists m', effect = Page.sendMessage m'.
Proof.
  destruct effect as [m'|i|msg]; [right; now exists m'| |]; left; cbn;
    unfold bind, ret, events;
    destruct (onMessage g net m sender n) as [[[[]|e] n1] evs]; cbn;
    rewrite ?app_nil_r; reflexivity.
Qed.

(** X7: when the text entered in a parameter modal is not empty once
    trimmed, a click on its submit button makes the worker call the
    endpoint, and every request carries the trimmed text -- inside the
    translation instruction, or as the whole instruction for a custom
    prompt -- with the sanitized selection as content. *)
Theorem X7_modal_to_request (g : Globals) (net : Network) (sender : Tab)
    (selectedText value : string) (n : nat) :
  truthy_id (id sender) = true -> trim value <> "" ->
  let translate :=
    requests (events (Page.deliver g net sender
                        (Page.translate_submit_onclick selectedText value) n)) in
  let custom :=
    requests (events (Page.deliver g net sender
                        (Page.prompt_submit_onclick selectedText value) n)) in
  (translate <> []%list /\
   forall req, In req translate ->
     query_of req = {| instruction := Str (translation_prompt (trim value));
                       content := Str ("Original Text: " ++ strip_tags selectedText);
                       temperature := Num 0.2 |}) /\
  (custom <> []%list /\
   forall req, In req custom ->
     query_of req = {| instruction := Str (trim value);
                       content := Str ("Original Text: " ++ strip_tags selectedText);
                       temperature := Num 0.2 |}).
Proof.
  intros Htab Hvalue translate custom. subst translate custom.
  unfold Page.translate_submit_onclick, Page.prompt_submit_onclick.
  rewrite (truthy_string_true _ Hvalue).
  split.
  - destruct (deliver_one g net sender (runTranslation selectedText (trim value))
                (Page.removeModal "translation-input-modal") n) as [->|[m' [=]]].
    rewrite (onMessage_requests _ _ _ _ _ Htab).
    split; [apply task_requests_nonempty|].
    intros req Hreq. apply task_requests_in in Hreq. subst req.
    apply query_of_request_of.
  - destruct (deliver_one g net sender (runCustomPrompt selectedText (trim value))
                (Page.removeModal "nano-prompt-input-modal") n) as [->|[m' [=]]].
    rewrite (onMessage_requests _ _ _ _ _ Htab).
    split; [apply task_requests_nonempty|].
    intros req Hreq. apply task_requests_in in Hreq. subst req.
    apply query_of_request_of.
Qed.

(** X7 for the language " French " typed with blanks around it. *)
Lemma X7_witness :
  Forall (fun req =>
            instruction (query_of req)
            = Str "You are an expert translator. Translate the following text strictly into French and provide only the translated text as the output.")
         (requests (events (Page.deliver (mkGlobals "key") net_up (mkTab (Some 7%N))
                              (Page.translate_submit_onclick "hello" " French ") 0))).
Proof.
  assert (Hvalue : trim " French " <> "") by discriminate.
  destruct (X7_modal_to_request (mkGlobals "key") net_up (mkTab (Some 7%N))
              "hello" " French " 0 eq_refl Hvalue) as ((_ & Htr) & _).
  apply Forall_forall. intros req Hreq. rewrite (Htr req Hreq). reflexivity.
Defined.

(** *** What is sent, and what is reported *)

(** X8: an invocation sends between one and three requests, all of them
    the same: a POST with the JSON content type to the model's
    generateContent address, the key appended as it is after "key=",
    whatever the endpoint answered before. *)
Theorem X8_same_request (g : Globals) (net : Network) (text systemPrompt : string)
    (n : nat) :
  exists k,
    k < 3 /\
    requests (events (executeCloudAiTask g net text systemPrompt n))
    = repeat
        {| url := "https://generativelanguage.googleapis.com/v1beta/models/gemini-2.5-flash-preview-05-20:generateContent?key="
                    ++ GEMINI_API_KEY g;
           method := "POST";
           headers := [("Content-Type", "application/json")]%list;
           body := make_payload (strip_tags text) systemPrompt |}
        (S k).
Proof.
  unroll_task.
  destruct (attempt_result net _ n 0); [exists 0; split; [lia | reflexivity]|].
  destruct (attempt_result net _ n 1); [exists 1; split; [lia | reflexivity]|].
  destruct (attempt_result net _ n 2); exists 2; split; try lia; reflexivity.
Qed.

Lemma runAiTask_failure_modal g net tabId n menu template title selectedText error :
  In (menu, template, title) direct_actions ->
  completion (executeCloudAiTask g net selectedText template n) = Throw error ->
  result_modals (events (runAiTask g net menu selectedText tabId n))
  = [(Str "Cloud AI Error",
      Str ("Error: " ++
           if truthy_string (message error) then message error
           else "API request failed. Check your API key and connection."))]%list.
Proof.
  intros Hin.
  unfold runAiTask, run_switch, finally, try_catch, bind, events, completion.
  destruct Hin as [[= <- <- <-]|[[= <- <- <-]|[[= <- <- <-]|[]]]]; cbn;
    match goal with
    | |- context [executeCloudAiTask ?g ?net ?t ?p ?n] =>
        pose proof (task_events_quiet g net t p n) as [Hq _];
        unfold events in Hq;
        destruct (executeCloudAiTask g net t p n) as [[[v|e] n1] evs]
    end; cbn in *; intros [= <-];
    rewrite !result_modals_app, Hq; reflexivity.
Qed.

(** X9: when the third attempt of a direct task gets a response outside
    200-299 whose body can be read, after two failed attempts, the
    invocation fails with "HTTP error", the status in decimal, a colon and
    that body, and the user is shown exactly that after "Error: " under
    "Cloud AI Error". *)
Theorem X9_http_error_reported (g : Globals) (net : Network) (tabId : option N)
    (n : nat) (menu template title selectedText : string) (e0 e1 : Error)
    (response : Response) (errorText : string) :
  In (menu, template, title) direct_actions ->
  attempt_result net (request_of g selectedText template) n 0 = Throw e0 ->
  attempt_result net (request_of g selectedText template) n 1 = Throw e1 ->
  net (n + 2) (request_of g selectedText template) = Normal response ->
  ok response = false ->
  text response = Normal errorText ->
  completion (executeCloudAiTask g net selectedText template n)
  = Throw (new_Error ("HTTP error " ++ decimal (status response) ++ ": " ++ errorText)) /\
  result_modals (events (runAiTask g net menu selectedText tabId n))
  = [(Str "Cloud AI Error",
      Str ("Error: HTTP error " ++ decimal (status response) ++ ": " ++ errorText))]%list.
Proof.
  intros Hin H0 H1 Hnet Hok Htext.
  assert (H2 : attempt_result net (request_of g selectedText template) n 2
               = Throw (new_Error ("HTTP error " ++ decimal (status response)
                                     ++ ": " ++ errorText))).
  { unfold attempt_result, read_response. rewrite Hnet, Hok, Htext. reflexivity. }
  assert (Hc : completion (executeCloudAiTask g net selectedText template n)
               = Throw (new_Error ("HTTP error " ++ decimal (status response)
                                     ++ ": " ++ errorText))).
  { unroll_task. fold (request_of g selectedText template).
    rewrite H0, H1, H2. reflexivity. }
  split; [exact Hc|].
  rewrite (runAiTask_failure_modal g net tabId n menu template title selectedText
             _ Hin Hc).
  reflexivity.
Qed.

(** X9 on the network that rejects the key. *)
Lemma X9_witness :
  result_modals (events (runAiTask (mkGlobals "key") net_denied SUBMENU_REWRITE_ID
                                   "hello" (Some 7%N) 0))
  = [(Str "Cloud AI Error", Str "Error: HTTP error 403: denied")]%list.
Proof.
  assert (Hin : In (SUBMENU_REWRITE_ID, REWRITE_PROMPT, "AI Rewrite (Simplified)")
                   direct_actions) by (right; left; reflexivity).
  exact (proj2 (X9_http_error_reported (mkGlobals "key") net_denied (Some 7%N) 0
                  SUBMENU_REWRITE_ID REWRITE_PROMPT "AI Rewrite (Simplified)" "hello"
                  (new_Error "HTTP error 403: denied")
                  (new_Error "HTTP error 403: denied")
                  (mkResponse 403 (Normal "denied")
                              (Throw (mkError "SyntaxError" "Unexpected token")))
                  "denied" Hin eq_refl eq_refl eq_refl eq_refl eq_refl)).
Defined.

(** *** Reading the body *)

(** X10: the optional chain protects every access but the first: reading
    the generated text throws (a TypeError) only when the parsed body is
    [null]; for any other body a 2xx attempt either returns a value or
    fails with the "empty or malformed response" error -- in particular
    when the body has no candidates, or an empty list of them. *)
Theorem X10_optional_chain (response : Response) (result : Value) :
  ok response = true -> json response = Normal result ->
  (result = Null ->
   read_response (Normal response)
   = Throw (new_TypeError "Cannot read properties of null (reading 'candidates')")) /\
  (result <> Null -> result <> Undefined ->
   (exists generated, read_response (Normal response) = Normal generated) \/
   read_response (Normal response) = Throw (new_Error MALFORMED)) /\
  (forall props,
      result = Obj props ->
      lookup "candidates" props = Undefined \/
      lookup "candidates" props = Arr []%list ->
      read_response (Normal response) = Throw (new_Error MALFORMED)).
Proof.
  intros Hok Hjson. unfold read_response. rewrite Hok, Hjson. cbn [negb].
  split; [|split].
  - intros ->. reflexivity.
  - intros Hnull Hundef.
    destruct result; try congruence; cbn;
      try (right; reflexivity);
      match goal with
      | |- context [truthy ?v] => destruct (truthy v); [left; eauto | right; reflexivity]
      end.
  - intros props -> [H|H]; cbn; rewrite H; reflexivity.
Qed.

(** X10 for the bodies [null], [{}] and [{"candidates": []}]. *)
Lemma X10_witness :
  read_response (respond_with Null)
  = Throw (new_TypeError "Cannot read properties of null (reading 'candidates')") /\
  read_response (respond_with (Obj []%list)) = Throw (new_Error MALFORMED) /\
  read_response (respond_with (Obj [("candidates", Arr []%list)]%list))
  = Throw (new_Error MALFORMED).
Proof.
  split; [|split].
  - apply (proj1 (X10_optional_chain (mkResponse 200 (Normal "") (Normal Null)) Null
                    eq_refl eq_refl)). reflexivity.
  - apply (proj2 (proj2 (X10_optional_chain
                           (mkResponse 200 (Normal "") (Normal (Obj []%list)))
                           (Obj []%list) eq_refl eq_refl)) []%list eq_refl).
    left. reflexivity.
  - apply (proj2 (proj2 (X10_optional_chain
                           (mkResponse 200 (Normal "")
                                       (Normal (Obj [("candidates", Arr []%list)]%list)))
                           (Obj [("candidates", Arr []%list)]%list) eq_refl eq_refl))
                 [("candidates", Arr []%list)]%list eq_refl).
    right. reflexivity.
Defined.

(** *** Sanitization, in general *)

Lemma occurs_string_of_list (c : ascii) (l : list ascii) :
  occurs c (string_of_list_ascii l) = existsb (fun x => Ascii.eqb x c) l.
Proof. induction l as [|x l IH]; cbn; [reflexivity | now rewrite IH]. Qed.

Lemma scan_no_lt (s : list ascii) (inTag : bool) :
  existsb (fun x => Ascii.eqb x "<") (scan inTag s) = false.
Proof.
  revert inTag. induction s as [|c s IH]; intros inTag; cbn; [reflexivity|].
  destruct inTag.
  - destruct (Ascii.eqb c ">"); apply IH.
  - destruct (Ascii.eqb c "<") eqn:Hc; [apply IH|].
    cbn. rewrite Hc. apply IH.
Qed.

Lemma scan_length (s : list ascii) (inTag : bool) :
  List.length (scan inTag s) <= List.length s.
Proof.
  revert inTag. induction s as [|c s IH]; intros inTag; cbn; [lia|].
  destruct inTag.
  - destruct (Ascii.eqb c ">"); [specialize (IH false) | specialize (IH true)]; lia.
  - destruct (Ascii.eqb c "<"); [specialize (IH true) | specialize (IH false)];
      cbn; lia.
Qed.

Lemma length_string_of_list (l : list ascii) :
  String.length (string_of_list_ascii l) = List.length l.
Proof. induction l as [|x l IH]; cbn; [reflexivity | now rewrite IH]. Qed.

Lemma length_list_of_string (s : string) :
  List.length (list_ascii_of_string s) = String.length s.
Proof. induction s as [|x s IH]; cbn; [reflexivity | now rewrite IH]. Qed.

Lemma strip_tags_no_lt (text : string) : occurs "<" (strip_tags text) = false.
Proof. rewrite strip_tags_scan, occurs_string_of_list. apply scan_no_lt. Qed.

(** X11: no "<" survives sanitization, whatever the text; so sanitizing
    twice is the same as sanitizing once. *)
Theorem X11_no_tag_opener_survives (text : string) :
  occurs "<" (strip_tags text) = false /\
  strip_tags (strip_tags text) = strip_tags text.
Proof.
  split; [apply strip_tags_no_lt | apply strip_tags_no_tag, strip_tags_no_lt].
Qed.

(** X12: sanitization never lengthens the text, and it changes the text
    exactly when the text contains a "<". *)
Theorem X12_sanitize_changes_iff (text : string) :
  String.length (strip_tags text) <= String.length text /\
  (strip_tags text = text <-> occurs "<" text = false).
Proof.
  split.
  - rewrite strip_tags_scan, length_string_of_list, <- length_list_of_string.
    apply scan_length.
  - split; [|apply strip_tags_no_tag].
    intros H. rewrite <- H. apply strip_tags_no_lt.
Qed.

(* ===================================================================== *)
(** ** Properties of the key and of the menus *)
(* ===================================================================== *)

(** X13: a key saved by the save listener is the key of the next task: a
    click on a direct action then calls the endpoint with that key after
    "key=", whatever key was set before. *)
Theorem X13_saved_key_is_used (g : Globals) (store : Settings.Storage)
    (sender tab : Tab) (net : Network) (n : nat)
    (apiKey menu template title selectedText : string) :
  apiKey <> "" -> selectedText <> "" -> truthy_id (id tab) = true ->
  In (menu, template, title) direct_actions ->
  let saved := Settings.onMessage_saveApiKey g store (saveApiKey apiKey) sender in
  let g' := fst (fst (fst saved)) in
  let sent :=
    requests (events (onClicked g' net (mkOnClickData menu (Some selectedText)) tab n)) in
  sent <> []%list /\
  forall req, In req sent ->
    url req
    = "https://generativelanguage.googleapis.com/v1beta/models/gemini-2.5-flash-preview-05-20:generateContent?key="
        ++ apiKey.
Proof.
  intros Hkey Hsel Htab Hin saved g' sent. subst sent g' saved. cbn [fst snd Settings.onMessage_saveApiKey].
  assert (Hin' : In (menu, template)
                    [(SUBMENU_SUMMARIZE_ID, SUMMARIZE_PROMPT);
                     (SUBMENU_REWRITE_ID, REWRITE_PROMPT);
                     (SUBMENU_PROOFREAD_ID, PROOFREAD_PROMPT)]%list).
  { destruct Hin as [[= <- <- <-]|[[= <- <- <-]|[[= <- <- <-]|[]]]];
      [left | right; left | right; right; left]; reflexivity. }
  destruct (onClicked_direct (mkGlobals apiKey) net menu template selectedText tab n
              Hin' Hkey Hsel Htab) as [-> Htemplate].
  rewrite runAiTask_requests, Htemplate.
  split; [apply task_requests_nonempty|].
  intros req Hreq. apply task_requests_in in Hreq. subst req. reflexivity.
Qed.

(** X13 for a key saved over an older one. *)
Lemma X13_witness :
  Forall (fun req =>
            url req
            = "https://generativelanguage.googleapis.com/v1beta/models/gemini-2.5-flash-preview-05-20:generateContent?key=new")
         (requests (events (onClicked
                              (fst (fst (fst (Settings.onMessage_saveApiKey
                                                (mkGlobals "old")
                                                (Settings.mkStorage (Some "old"))
                                                (saveApiKey "new") (mkTab (Some 7%N))))))
                              net_up
                              (mkOnClickData SUBMENU_SUMMARIZE_ID (Some "hello"))
                              (mkTab (Some 7%N)) 0))).
Proof.
  assert (Hkey : "new" <> "") by discriminate.
  assert (Hsel : "hello" <> "") by discriminate.
  assert (Hin : In (SUBMENU_SUMMARIZE_ID, SUMMARIZE_PROMPT, "AI Summary (Key Points)")
                   direct_actions) by (left; reflexivity).
  apply Forall_forall.
  exact (proj2 (X13_saved_key_is_used (mkGlobals "old") (Settings.mkStorage (Some "old"))
                  (mkTab (Some 7%N)) (mkTab (Some 7%N)) net_up 0
                  "new" SUBMENU_SUMMARIZE_ID SUMMARIZE_PROMPT "AI Summary (Key Points)"
                  "hello" Hkey Hsel eq_refl Hin)).
Defined.

(** X15: a saved key comes back at installation: with a non-empty key in
    storage the listener sets the global to it, whatever the global was;
    with nothing stored, or the empty string, it leaves the global as it
    is. *)
Theorem X15_key_round_trip (g g0 : Globals) (store : Settings.Storage)
    (sender : Tab) (apiKey : string) :
  apiKey <> "" ->
  let saved := Settings.onMessage_saveApiKey g store (saveApiKey apiKey) sender in
  fst (fst (Settings.onInstalled g0 (snd (fst (fst saved))))) = mkGlobals apiKey /\
  fst (fst (Settings.onInstalled g0 (Settings.mkStorage None))) = g0 /\
  fst (fst (Settings.onInstalled g0 (Settings.mkStorage (Some "")))) = g0.
Proof.
  intros Hkey. cbv zeta.
  unfold Settings.onInstalled, Settings.load_key. cbn.
  rewrite (truthy_string_true _ Hkey). repeat split.
Qed.

(** X15 for the key "secret" and a worker that starts without a key. *)
Lemma X15_witness :
  fst (fst (Settings.onInstalled
              initial
              (snd (fst (fst (Settings.onMessage_saveApiKey
                                (mkGlobals "old") (Settings.mkStorage None)
                                (saveApiKey "secret") (mkTab (Some 7%N))))))))
  = mkGlobals "secret".
Proof.
  assert (Hkey : "secret" <> "") by discriminate.
  exact (proj1 (X15_key_round_trip (mkGlobals "old") initial (Settings.mkStorage None)
                  (mkTab (Some 7%N)) "secret" Hkey)).
Defined.

(** X16: whatever the key and the storage, installation first calls
    [removeAll] and then makes seven [create] calls and no other menu call;
    the seven ids are all different, and every item that names a parent is
    created after the item with that id. *)
Theorem X16_menu_calls (g : Globals) (store : Settings.Storage) :
  let calls := snd (fst (Settings.onInstalled g store)) in
  (exists items,
      calls = (Settings.removeAll :: map Settings.create items)%list /\
      List.length items = 7 /\
      NoDup (map Settings.item_id items)) /\
  forall i item parent,
    nth_error calls i = Some (Settings.create item) ->
    Settings.parentId item = Some parent ->
    exists j earlier,
      j < i /\ nth_error calls j = Some (Settings.create earlier) /\
      Settings.item_id earlier = parent.
Proof.
  cbv zeta. unfold Settings.onInstalled. cbn [fst snd]. split.
  - exists Settings.created. split; [reflexivity|]. split; [reflexivity|].
    cbv [map Settings.created Settings.item_id Settings.child].
    repeat constructor; cbn; intuition discriminate.
  - intros i item parent Hi Hparent.
    do 8 (destruct i as [|i];
          [cbn in Hi;
           first
             [ discriminate Hi
             | injection Hi as <-; cbn in Hparent;
               first
                 [ discriminate Hparent
                 | injection Hparent as <-;
                   exists 2, (Settings.mkMenuItem AI_TASKS_GROUP None "Cloud AI Tasks"
                                                  ["selection"%string]%list);
                   split; [lia | split; reflexivity] ] ]
          |]).
    cbn in Hi. destruct i; discriminate Hi.
Qed.

Lemma runAiTask_success_modal g net tabId n menu template title selectedText generated :
  In (menu, template, title) direct_actions ->
  completion (executeCloudAiTask g net selectedText template n) = Normal generated ->
  result_modals (events (runAiTask g net menu selectedText tabId n))
  = [(Str title, generated)]%list.
Proof.
  intros Hin.
  unfold runAiTask, run_switch, finally, try_catch, bind, events, completion.
  destruct Hin as [[= <- <- <-]|[[= <- <- <-]|[[= <- <- <-]|[]]]]; cbn;
    match goal with
    | |- context [executeCloudAiTask ?g ?net ?t ?p ?n] =>
        pose proof (task_events_quiet g net t p n) as [Hq _];
        unfold events in Hq;
        destruct (executeCloudAiTask g net t p n) as [[[v|e] n1] evs]
    end; cbn in *; intros [= <-];
    rewrite !result_modals_app, Hq; reflexivity.
Qed.

(** A run of a direct action shows one modal, under a title. *)
Lemma runAiTask_titled g net tabId n menu template title selectedText :
  In (menu, template, title) direct_actions ->
  exists t c,
    result_modals (events (runAiTask g net menu selectedText tabId n))
    = [(Str t, c)]%list.
Proof.
  intros Hin.
  destruct (completion (executeCloudAiTask g net selectedText template n))
    as [generated|error] eqn:Hc.
  - exists title, generated.
    exact (runAiTask_success_modal g net tabId n menu template title selectedText
             generated Hin Hc).
  - eexists _, _.
    exact (runAiTask_failure_modal g net tabId n menu template title selectedText
             error Hin Hc).
Qed.

(** X17: every menu item that installation creates is one the click
    listener knows: whatever the key, selection and tab, a click on it
    never reaches the end of the [switch] of [runAiTask] without a case,
    so every result modal it shows has a title. *)
Theorem X17_created_items_handled (g : Globals) (net : Network)
    (item : Settings.MenuItem) (selection : option string) (tab : Tab) (n : nat) :
  In item Settings.created ->
  forall title content,
    In (title, content)
       (result_modals (events (onClicked g net
                                 (mkOnClickData (Settings.item_id item) selection) tab n))) ->
    exists t, title = Str t.
Proof.
  intros Hitem title content.
  assert (Hcases :
            Settings.item_id item = ACTION_SET_API_KEY \/
            Settings.item_id item = AI_TASKS_GROUP \/
            Settings.item_id item = SUBMENU_TRANSLATE_ID \/
            Settings.item_id item = SUBMENU_CUSTOM_PROMPT_ID \/
            exists template t, In (Settings.item_id item, template, t) direct_actions).
  { cbv [Settings.created Settings.child] in Hitem.
    destruct Hitem as [<-|[<-|[<-|[<-|[<-|[<-|[<-|[]]]]]]]]; cbn [Settings.item_id].
    - now left.
    - now right; left.
    - right; right; right; right. eexists _, _. left. reflexivity.
    - right; right; right; right. eexists _, _. right; left. reflexivity.
    - right; right; right; right. eexists _, _. right; right; left. reflexivity.
    - now right; right; left.
    - now right; right; right; left. }
  unfold onClicked. cbn [menuItemId selectionText].
  destruct Hcases as [->|[->|[->|[->|(template & t & Hin)]]]].
  - cbn. intros [].
  - cbn. destruct selection as [s|]; [|intros []].
    rewrite !orb_true_r. intros [].
  - cbn. destruct selection as [s|]; [|intros []].
    destruct (negb (truthy_string s) || negb (truthy_id (id tab)) || false);
      [intros []|].
    destruct (negb (truthy_string (GEMINI_API_KEY g))); cbn.
    + intros [[= <- _]|[]]. now eexists.
    + intros [].
  - cbn. destruct selection as [s|]; [|intros []].
    destruct (negb (truthy_string s) || negb (truthy_id (id tab)) || false);
      [intros []|].
    destruct (negb (truthy_string (GEMINI_API_KEY g))); cbn.
    + intros [[= <- _]|[]]. now eexists.
    + intros [].
  - assert (Heqs : String.eqb (Settings.item_id item) ACTION_SET_API_KEY = false /\
                   String.eqb (Settings.item_id item) AI_TASKS_GROUP = false /\
                   String.eqb (Settings.item_id item) SUBMENU_CUSTOM_PROMPT_ID = false /\
                   String.eqb (Settings.item_id item) SUBMENU_TRANSLATE_ID = false).
    { destruct Hin as [[= <- _ _]|[[= <- _ _]|[[= <- _ _]|[]]]]; repeat split. }
    destruct Heqs as (-> & -> & -> & ->).
    destruct selection as [s|]; [|intros []].
    destruct (negb (truthy_string s) || negb (truthy_id (id tab)) || false);
      [intros []|].
    destruct (negb (truthy_string (GEMINI_API_KEY g))); cbn.
    + intros [[= <- _]|[]]. now eexists.
    + destruct (runAiTask_titled g net (id tab) n _ _ _ s Hin) as (t' & c' & ->).
      intros [[= <- _]|[]]. now eexists.
Qed.

(** X17 for the item "Proofread & Correct". *)
Lemma X17_witness :
  Forall (fun tc => exists t, fst tc = Str t)
         (result_modals (events (onClicked (mkGlobals "key") net_up
                                   (mkOnClickData SUBMENU_PROOFREAD_ID (Some "teh text"))
                                   (mkTab (Some 7%N)) 0))).
Proof.
  apply Forall_forall. intros [title content] Hin.
  refine (X17_created_items_handled (mkGlobals "key") net_up
            (Settings.child SUBMENU_PROOFREAD_ID "Proofread & Correct")
            (Some "teh text") (mkTab (Some 7%N)) 0 _ title content Hin).
  do 4 right. left. reflexivity.
Defined.

(** X18: a click on "Save Key" with a text that is empty once trimmed only
    shows an alert and changes neither the key nor the storage; with any
    other text it sends the trimmed text, which the save listener makes both
    the key and the stored key -- so a key saved through the modal is never
    empty. *)
Theorem X18_key_modal (g : Globals) (store : Settings.Storage) (sender : Tab)
    (value : string) :
  let after := Modals.deliver_key g store sender (Modals.api_key_save_onclick value) in
  (trim value = "" ->
   Modals.api_key_save_onclick value = [Page.alert "The API Key cannot be empty."]%list /\
   after = (g, store)) /\
  (trim value <> "" ->
   Modals.api_key_save_onclick value = [Page.sendMessage (saveApiKey (trim value))]%list /\
   after = (mkGlobals (trim value), Settings.mkStorage (Some (trim value))) /\
   GEMINI_API_KEY (fst after) <> "").
Proof.
  cbv zeta. unfold Modals.api_key_save_onclick. split.
  - intros ->. split; reflexivity.
  - intros Hvalue. rewrite (truthy_string_true _ Hvalue).
    split; [reflexivity|]. split; [reflexivity|]. exact Hvalue.
Qed.

(** X18 for blanks, and for a key typed with blanks around it. *)
Lemma X18_witness :
  Modals.deliver_key initial (Settings.mkStorage None) (mkTab (Some 7%N))
                     (Modals.api_key_save_onclick "   ")
  = (initial, Settings.mkStorage None) /\
  Modals.deliver_key initial (Settings.mkStorage None) (mkTab (Some 7%N))
                     (Modals.api_key_save_onclick " secret ")
  = (mkGlobals "secret", Settings.mkStorage (Some "secret")).
Proof.
  assert (Hvalue : trim " secret " <> "") by discriminate.
  split.
  - exact (proj2 (proj1 (X18_key_modal initial (Settings.mkStorage None)
                           (mkTab (Some 7%N)) "   ") eq_refl)).
  - exact (proj1 (proj2 (proj2 (X18_key_modal initial (Settings.mkStorage None)
                                  (mkTab (Some 7%N)) " secret ") Hvalue))).
Defined.

(* ===================================================================== *)
(** ** Properties of the result modal *)
(* ===================================================================== *)

(** *** The replacement, step by step *)

Lemma string_of_list_app (a b : list ascii) :
  string_of_list_ascii (a ++ b)%list = string_of_list_ascii a ++ string_of_list_ascii b.
Proof. induction a as [|c a IH]; cbn; [reflexivity | now rewrite IH]. Qed.

Lemma list_of_string_app (a b : string) :
  list_ascii_of_string (a ++ b)
  = (list_ascii_of_string a ++ list_ascii_of_string b)%list.
Proof. induction a as [|c a IH]; cbn; [reflexivity | now rewrite IH]. Qed.

Lemma replace_str_all p template s :
  RegExp.replace_all p template s = replace_str p template None s.
Proof. reflexivity. Qed.

Lemma replace_str_empty p template before :
  RegExp.match_here p []%list (RegExp.start_at before) = None ->
  replace_str p template before "" = "".
Proof.
  intros H. unfold replace_str. cbn. simp replace_from. rewrite H. reflexivity.
Qed.

Lemma replace_str_copy p template before c s :
  RegExp.match_here p (c :: list_ascii_of_string s)%list (RegExp.start_at before) = None ->
  replace_str p template before (String c s)
  = String c (replace_str p template (Some c) s).
Proof.
  intros H. unfold replace_str. cbn. simp replace_from. rewrite H. reflexivity.
Qed.

Lemma replace_str_match p template before c s rest ctx :
  RegExp.match_here p (c :: list_ascii_of_string s)%list (RegExp.start_at before)
  = Some (list_ascii_of_string rest, ctx) ->
  String.length rest <= String.length s ->
  replace_str p template before (String c s)
  = string_of_list_ascii (RegExp.expand template ctx)
      ++ replace_str p template (RegExp.prev ctx) rest.
Proof.
  intros H Hlen. unfold replace_str. cbn. simp replace_from. rewrite H. cbn.
  rewrite <- !length_list_of_string in Hlen.
  destruct (le_lt_dec _ _) as [Hle|Hgt]; [|lia].
  cbn. apply string_of_list_app.
Qed.

Lemma length_append (a b : string) :
  String.length (a ++ b) = String.length a + String.length b.
Proof. induction a as [|c a IH]; cbn; [reflexivity | now rewrite IH]. Qed.

Lemma occurs_append (c : ascii) (a b : string) :
  occurs c (a ++ b) = occurs c a || occurs c b.
Proof.
  induction a as [|x a IH]; cbn; [reflexivity|].
  rewrite IH. apply orb_assoc.
Qed.

(** *** Bold markers *)

Lemma many_lazy_cons a k c s ctx :
  RegExp.many_lazy a k (c :: s)%list ctx
  = match k (c :: s)%list ctx with
    | Some r => Some r
    | None => if RegExp.accepts a c then RegExp.many_lazy a k s (RegExp.consume c ctx)
              else None
    end.
Proof. reflexivity. Qed.

Lemma close_bold_fail c s ctx :
  Ascii.eqb c "*" = false ->
  RegExp.match_here CLOSE_BOLD (c :: s)%list ctx = None.
Proof. intros H. cbn. rewrite H. reflexivity. Qed.

Lemma bold_identity (s : string) (before : option ascii) :
  occurs "*" s = false -> replace_str Modals.BOLD STRONG before s = s.
Proof.
  revert before. induction s as [|c s IH]; intros before H.
  - apply replace_str_empty. reflexivity.
  - cbn in H. apply orb_false_iff in H. destruct H as [Hc Hs].
    rewrite replace_str_copy; [now rewrite IH|].
    cbn. rewrite Hc. reflexivity.
Qed.

(** The lazy group stops at the first pair of stars. *)
Lemma bold_lazy_found (x rest : string) (acc : list ascii) (pv : option ascii)
    (cap : option (list ascii)) :
  occurs "*" x = false -> occurs "010" x = false -> occurs "013" x = false ->
  RegExp.many_lazy RegExp.Dot (RegExp.match_here CLOSE_BOLD)
                   (list_ascii_of_string (x ++ "**" ++ rest))
                   (RegExp.mkContext pv (Some acc) cap)
  = Some (list_ascii_of_string rest,
          RegExp.mkContext (Some "*"%char) None
                           (Some (rev acc ++ list_ascii_of_string x)%list)).
Proof.
  revert acc pv. induction x as [|c x IH]; intros acc pv Hs Hl Hr.
  - cbn. rewrite app_nil_r. reflexivity.
  - cbn in Hs, Hl, Hr.
    apply orb_false_iff in Hs. destruct Hs as [Hc Hs].
    apply orb_false_iff in Hl. destruct Hl as [Hcl Hl].
    apply orb_false_iff in Hr. destruct Hr as [Hcr Hr].
    cbn [append list_ascii_of_string].
    rewrite many_lazy_cons, (close_bold_fail _ _ _ Hc).
    unfold RegExp.accepts, RegExp.line_terminator. rewrite Hcl, Hcr.
    cbn [orb negb]. unfold RegExp.consume. cbn [RegExp.opened RegExp.captured option_map].
    pose proof (IH (c :: acc)%list (Some c) Hs Hl Hr) as E.
    cbn [append] in E. rewrite E.
    cbn [rev]. rewrite <- app_assoc. reflexivity.
Qed.

(** Without a pair of stars on the line, the lazy group finds nothing. *)
Lemma bold_lazy_none (x tail : string) (acc : list ascii) (pv : option ascii)
    (cap : option (list ascii)) :
  occurs "*" x = false ->
  tail = "" \/ (exists c r, tail = String c r /\ RegExp.line_terminator c = true) ->
  RegExp.many_lazy RegExp.Dot (RegExp.match_here CLOSE_BOLD)
                   (list_ascii_of_string (x ++ tail))
                   (RegExp.mkContext pv (Some acc) cap)
  = None.
Proof.
  revert acc pv. induction x as [|c x IH]; intros acc pv Hs Htail.
  - cbn. destruct Htail as [->|(c & r & -> & Hc)]; [reflexivity|].
    cbn. rewrite Hc.
    destruct (Ascii.eqb c "*") eqn:Hstar; [|reflexivity].
    apply Ascii.eqb_eq in Hstar. subst c. discriminate Hc.
  - cbn in Hs. apply orb_false_iff in Hs. destruct Hs as [Hc Hs].
    cbn [append list_ascii_of_string].
    rewrite many_lazy_cons, (close_bold_fail _ _ _ Hc).
    destruct (RegExp.accepts RegExp.Dot c); [|reflexivity].
    apply IH; assumption.
Qed.

Lemma bold_before_irrelevant (s : string) (b1 b2 : option ascii) :
  replace_str Modals.BOLD STRONG b1 s = replace_str Modals.BOLD STRONG b2 s.
Proof.
  unfold replace_str. destruct s as [|c s]; cbn.
  - simp replace_from. reflexivity.
  - simp replace_from.
    replace (RegExp.match_here Modals.BOLD (c :: list_ascii_of_string s)%list
                               (RegExp.start_at b2))
      with (RegExp.match_here Modals.BOLD (c :: list_ascii_of_string s)%list
                              (RegExp.start_at b1)) by reflexivity.
    reflexivity.
Qed.

Lemma bold_span (a x b : string) (before : option ascii) :
  occurs "*" a = false ->
  occurs "*" x = false -> occurs "010" x = false -> occurs "013" x = false ->
  replace_str Modals.BOLD STRONG before (a ++ "**" ++ x ++ "**" ++ b)
  = a ++ "<strong>" ++ x ++ "</strong>" ++ replace_str Modals.BOLD STRONG None b.
Proof.
  intros Ha Hx Hl Hr. revert before. induction a as [|c a IH]; intros before.
  - change ("" ++ "**" ++ x ++ "**" ++ b) with (String "*" (String "*" (x ++ "**" ++ b))).
    rewrite (replace_str_match Modals.BOLD STRONG before "*"%char
               (String "*" (x ++ "**" ++ b)) b
               (RegExp.mkContext (Some "*"%char) None (Some (list_ascii_of_string x)))).
    + cbn [RegExp.prev]. rewrite (bold_before_irrelevant b (Some "*"%char) None).
      unfold RegExp.expand. cbn.
      rewrite string_of_list_app, string_of_list_ascii_of_string, append_assoc'.
      reflexivity.
    + cbn. exact (bold_lazy_found x b []%list (Some "*"%char) None Hx Hl Hr).
    + cbn. rewrite !length_append. cbn. lia.
  - cbn in Ha. apply orb_false_iff in Ha. destruct Ha as [Hc Ha].
    change (String c a ++ "**" ++ x ++ "**" ++ b)
      with (String c (a ++ "**" ++ x ++ "**" ++ b)).
    rewrite replace_str_copy; [now rewrite (IH Ha)|].
    cbn. rewrite Hc. reflexivity.
Qed.

(** X19: the first replacement turns a pair of double stars around a
    stretch of one line without a star into a [<strong>] element, keeps the
    star-free text before it as it is, and goes on in the same way with the
    text after it. *)
Theorem X19_bold_span (a x b : string) :
  occurs "*" a = false -> plain_line x = true ->
  Modals.bold (a ++ "**" ++ x ++ "**" ++ b)
  = a ++ "<strong>" ++ x ++ "</strong>" ++ Modals.bold b.
Proof.
  intros Ha Hx. unfold plain_line in Hx.
  apply andb_true_iff in Hx. destruct Hx as [Hx Hr].
  apply andb_true_iff in Hx. destruct Hx as [Hs Hl].
  apply negb_true_iff in Hs, Hl, Hr.
  unfold Modals.bold. rewrite !replace_str_all.
  apply bold_span; assumption.
Qed.

(** X19 on a sentence with two bold words. *)
Lemma X19_witness :
  Modals.bold "a **b** c **d** e" = "a <strong>b</strong> c <strong>d</strong> e".
Proof.
  exact (eq_trans
           (X19_bold_span "a " "b" " c **d** e" eq_refl eq_refl)
           (f_equal (fun t => "a <strong>b</strong>" ++ t)
                    (X19_bold_span " c " "d" " e" eq_refl eq_refl))).
Defined.

Lemma bold_copy (a s : string) (before : option ascii) :
  occurs "*" a = false ->
  replace_str Modals.BOLD STRONG before (a ++ s)
  = a ++ replace_str Modals.BOLD STRONG None s.
Proof.
  intros Ha. revert before. induction a as [|c a IH]; intros before.
  - apply bold_before_irrelevant.
  - cbn in Ha. apply orb_false_iff in Ha. destruct Ha as [Hc Ha].
    change (String c a ++ s) with (String c (a ++ s)).
    rewrite replace_str_copy; [now rewrite (IH Ha)|].
    cbn. rewrite Hc. reflexivity.
Qed.

Lemma line_terminator_not_star (c : ascii) :
  RegExp.line_terminator c = true -> Ascii.eqb c "*" = false.
Proof.
  intros H. destruct (Ascii.eqb c "*") eqn:E; [|reflexivity].
  apply Ascii.eqb_eq in E. subst c. discriminate H.
Qed.

(** X20: the first replacement keeps text without a star as it is and goes
    on after it; an opening pair of stars with no second pair on its line
    (the text ends, or the line does, before any other star) is kept too,
    with the text up to the end of that line. *)
Theorem X20_bold_unchanged :
  (forall a s, occurs "*" a = false -> Modals.bold (a ++ s) = a ++ Modals.bold s) /\
  (forall a, occurs "*" a = false -> Modals.bold a = a) /\
  (forall x tail,
      occurs "*" x = false ->
      tail = "" \/ (exists c r, tail = String c r /\ RegExp.line_terminator c = true) ->
      Modals.bold ("**" ++ x ++ tail) = "**" ++ x ++ Modals.bold tail).
Proof.
  unfold Modals.bold. split; [|split].
  - intros a s Ha. rewrite !replace_str_all. now apply bold_copy.
  - intros a Ha. rewrite replace_str_all. now apply bold_identity.
  - intros x tail Hx Htail. rewrite !replace_str_all.
    change ("**" ++ x ++ tail) with (String "*" (String "*" (x ++ tail))).
    rewrite replace_str_copy.
    2: { cbn. exact (bold_lazy_none x tail []%list (Some "*"%char) None Hx Htail). }
    rewrite replace_str_copy.
    2: { cbn. destruct x as [|c x].
         - destruct Htail as [->|(c & r & -> & Hc)]; [reflexivity|].
           cbn. rewrite (line_terminator_not_star c Hc). reflexivity.
         - cbn in Hx. apply orb_false_iff in Hx. destruct Hx as [Hc _].
           cbn. rewrite Hc. reflexivity. }
    rewrite (bold_copy x tail _ Hx). reflexivity.
Qed.

(** X20 for markers left open, and for a pair split over two lines. *)
Lemma X20_witness :
  Modals.bold ("**" ++ "not closed" ++ "") = "**not closed" /\
  Modals.bold ("**" ++ "one" ++ (LF ++ "two**")) = "**one" ++ LF ++ "two**".
Proof.
  destruct X20_bold_unchanged as (_ & _ & Hopen).
  split.
  - exact (Hopen "not closed" "" eq_refl (or_introl eq_refl)).
  - exact (Hopen "one" (LF ++ "two**") eq_refl
                 (or_intror (ex_intro _ "010"%char
                               (ex_intro _ "two**" (conj eq_refl eq_refl))))).
Defined.

(** *** Bullets *)

Lemma bullets_empty (before : option ascii) :
  replace_str Modals.BULLET LI before "" = "".
Proof.
  apply replace_str_empty. cbn.
  destruct (RegExp.at_line_start (RegExp.start_at before)); reflexivity.
Qed.

Lemma bullets_copy_char (before : option ascii) (c : ascii) (s : string) :
  RegExp.at_line_start (RegExp.start_at before) && Ascii.eqb c "-" = false ->
  replace_str Modals.BULLET LI before (String c s)
  = String c (replace_str Modals.BULLET LI (Some c) s).
Proof.
  intros H. apply replace_str_copy.
  cbn [RegExp.match_here Modals.BULLET].
  destruct (RegExp.at_line_start (RegExp.start_at before)); [|reflexivity].
  cbn in H. cbn. rewrite H. reflexivity.
Qed.

Lemma bullets_identity (s : string) (before : option ascii) :
  no_dash_at_line_start before s = true ->
  replace_str Modals.BULLET LI before s = s.
Proof.
  revert before. induction s as [|c s IH]; intros before H.
  - apply bullets_empty.
  - cbn [no_dash_at_line_start] in H.
    apply andb_true_iff in H. destruct H as [Hc Hs].
    apply negb_true_iff in Hc.
    rewrite (bullets_copy_char before c s Hc), (IH _ Hs). reflexivity.
Qed.

Lemma many_cons a k c s ctx :
  RegExp.many a k (c :: s)%list ctx
  = if RegExp.accepts a c
    then match RegExp.many a k s (RegExp.consume c ctx) with
         | Some r => Some r
         | None => k (c :: s)%list ctx
         end
    else k (c :: s)%list ctx.
Proof. reflexivity. Qed.

(** The greedy group takes the rest of the line. *)
Lemma bullet_greedy (line rest : string) (acc : list ascii) (pv : option ascii)
    (cap : option (list ascii)) :
  one_line line = true ->
  rest = "" \/ (exists c r, rest = String c r /\ RegExp.line_terminator c = true) ->
  exists pv',
    RegExp.many RegExp.Dot (RegExp.match_here [RegExp.Close]%list)
                (list_ascii_of_string (line ++ rest))
                (RegExp.mkContext pv (Some acc) cap)
    = Some (list_ascii_of_string rest,
            RegExp.mkContext pv' None
                             (Some (rev acc ++ list_ascii_of_string line)%list)).
Proof.
  intros Hline Hrest. revert acc pv. induction line as [|c line IH]; intros acc pv.
  - cbn [append list_ascii_of_string]. rewrite app_nil_r.
    destruct Hrest as [->|(c & r & -> & Hc)].
    + exists pv. reflexivity.
    + exists pv. cbn [list_ascii_of_string]. rewrite many_cons.
      unfold RegExp.accepts. rewrite Hc. reflexivity.
  - unfold one_line in Hline. cbn [occurs] in Hline.
    rewrite !negb_orb in Hline.
    apply andb_true_iff in Hline. destruct Hline as [Hl Hr].
    apply andb_true_iff in Hl. destruct Hl as [Hcl Hl].
    apply andb_true_iff in Hr. destruct Hr as [Hcr Hr].
    assert (Hline : one_line line = true).
    { unfold one_line. rewrite Hl, Hr. reflexivity. }
    destruct (IH Hline (c :: acc)%list (Some c)) as [pv' E].
    exists pv'.
    change (list_ascii_of_string (String c line ++ rest))
      with (c :: list_ascii_of_string (line ++ rest))%list.
    rewrite many_cons.
    replace (RegExp.accepts RegExp.Dot c) with true.
    2: { unfold RegExp.accepts, RegExp.line_terminator.
         apply negb_true_iff in Hcl, Hcr. rewrite Hcl, Hcr. reflexivity. }
    unfold RegExp.consume. cbn [RegExp.opened RegExp.captured option_map].
    rewrite E. cbn [rev]. rewrite <- app_assoc. reflexivity.
Qed.

Lemma bullet_line (before : option ascii) (item rest : string) :
  RegExp.at_line_start (RegExp.start_at before) = true ->
  one_line item = true ->
  rest = "" \/ (exists c r, rest = String c r /\ RegExp.line_terminator c = true) ->
  exists pv',
    replace_str Modals.BULLET LI before ("- " ++ item ++ rest)
    = "<li>" ++ item ++ "</li>" ++ replace_str Modals.BULLET LI pv' rest.
Proof.
  intros Hstart Hitem Hrest.
  destruct (bullet_greedy item rest []%list (Some " "%char) None Hitem Hrest) as [pv' E].
  exists pv'.
  change ("- " ++ item ++ rest) with (String "-" (String " " (item ++ rest))).
  rewrite (replace_str_match Modals.BULLET LI before "-"%char
             (String " " (item ++ rest)) rest
             (RegExp.mkContext pv' None (Some (list_ascii_of_string item)))).
  - unfold RegExp.expand. cbn.
    rewrite string_of_list_app, string_of_list_ascii_of_string, append_assoc'.
    reflexivity.
  - cbn [RegExp.match_here Modals.BULLET]. rewrite Hstart. cbn. exact E.
  - cbn. rewrite !length_append. lia.
Qed.

Lemma bullet_lines (items : list string) (before : option ascii) :
  RegExp.at_line_start (RegExp.start_at before) = true ->
  forallb one_line items = true -> items <> []%list ->
  replace_str Modals.BULLET LI before (join LF (map dash_item items))
  = join LF (map li_item items).
Proof.
  intros Hstart Hitems Hne. revert before Hstart.
  induction items as [|item items IH]; intros before Hstart; [congruence|].
  cbn [forallb] in Hitems. apply andb_true_iff in Hitems.
  destruct Hitems as [Hitem Hitems].
  destruct items as [|item' items].
  - cbn [map join]. unfold dash_item.
    destruct (bullet_line before item "" Hstart Hitem (or_introl eq_refl)) as [pv' E].
    rewrite (append_empty_r item) in E. rewrite E, bullets_empty.
    unfold li_item. rewrite append_empty_r. reflexivity.
  - change (join LF (map dash_item (item :: item' :: items)))
      with (dash_item item ++ LF ++ join LF (map dash_item (item' :: items))).
    change (join LF (map li_item (item :: item' :: items)))
      with (li_item item ++ LF ++ join LF (map li_item (item' :: items))).
    unfold dash_item at 1. rewrite append_assoc'.
    destruct (bullet_line before item
                (LF ++ join LF (map dash_item (item' :: items))) Hstart Hitem)
      as [pv' E].
    { right. eexists _, _. split; reflexivity. }
    rewrite E.
    change (LF ++ join LF (map dash_item (item' :: items)))
      with (String "010" (join LF (map dash_item (item' :: items)))).
    rewrite bullets_copy_char by (rewrite andb_false_r; reflexivity).
    rewrite (IH Hitems ltac:(discriminate) (Some "010"%char) eq_refl).
    unfold li_item at 2. rewrite !append_assoc'. reflexivity.
Qed.

(** *** Paragraph breaks *)

Lemma startsWith_char (d c : ascii) (s : string) :
  Modals.startsWith (String d s) (String c "") = Ascii.eqb d c.
Proof.
  cbn [Modals.startsWith]. rewrite Ascii.eqb_sym.
  destruct s; apply andb_true_r.
Qed.

Lemma blank_copy_char (before : option ascii) (c : ascii) (s : string) :
  Ascii.eqb c "010" = false \/ Modals.startsWith s LF = false ->
  replace_str Modals.BLANK_LINE BREAK before (String c s)
  = String c (replace_str Modals.BLANK_LINE BREAK (Some c) s).
Proof.
  intros H. apply replace_str_copy. cbn.
  destruct (Ascii.eqb c "010"); [|reflexivity].
  destruct H as [H|H]; [discriminate H|].
  destruct s as [|d s]; [reflexivity|].
  unfold LF in H. rewrite startsWith_char in H.
  cbn. rewrite H. reflexivity.
Qed.

Lemma blank_identity (s : string) (before : option ascii) :
  occurs "010" s = false -> replace_str Modals.BLANK_LINE BREAK before s = s.
Proof.
  revert before. induction s as [|c s IH]; intros before H.
  - apply replace_str_empty. reflexivity.
  - cbn in H. apply orb_false_iff in H. destruct H as [Hc Hs].
    rewrite blank_copy_char by (left; exact Hc). now rewrite IH.
Qed.

(** A line feed followed by something else stays. *)
Lemma blank_copy_line (p tail : string) (before : option ascii) :
  occurs "010" p = false -> Modals.startsWith tail LF = false ->
  replace_str Modals.BLANK_LINE BREAK before (p ++ LF ++ tail)
  = p ++ LF ++ replace_str Modals.BLANK_LINE BREAK (Some "010"%char) tail.
Proof.
  intros Hp Htail. revert before. induction p as [|c p IH]; intros before.
  - change ("" ++ LF ++ tail) with (String "010" tail).
    rewrite blank_copy_char by (right; exact Htail). reflexivity.
  - cbn in Hp. apply orb_false_iff in Hp. destruct Hp as [Hc Hp].
    change (String c p ++ LF ++ tail) with (String c (p ++ LF ++ tail)).
    rewrite blank_copy_char by (left; exact Hc). now rewrite (IH Hp).
Qed.

(** Two line feeds become a paragraph break. *)
Lemma blank_break (p s : string) (before : option ascii) :
  occurs "010" p = false ->
  replace_str Modals.BLANK_LINE BREAK before (p ++ (LF ++ LF) ++ s)
  = p ++ "</p><p>" ++ replace_str Modals.BLANK_LINE BREAK (Some "010"%char) s.
Proof.
  intros Hp. revert before. induction p as [|c p IH]; intros before.
  - change ("" ++ (LF ++ LF) ++ s) with (String "010" (String "010" s)).
    rewrite (replace_str_match Modals.BLANK_LINE BREAK before "010"%char
               (String "010" s) s
               (RegExp.mkContext (Some "010"%char) None None)).
    + reflexivity.
    + reflexivity.
    + cbn. lia.
  - cbn in Hp. apply orb_false_iff in Hp. destruct Hp as [Hc Hp].
    change (String c p ++ (LF ++ LF) ++ s) with (String c (p ++ (LF ++ LF) ++ s)).
    rewrite blank_copy_char by (left; exact Hc). now rewrite (IH Hp).
Qed.

Lemma blank_paragraphs (paras : list string) (before : option ascii) :
  forallb (fun p => negb (occurs "010" p)) paras = true ->
  replace_str Modals.BLANK_LINE BREAK before (join (LF ++ LF) paras)
  = join "</p><p>" paras.
Proof.
  revert before. induction paras as [|p paras IH]; intros before H.
  - apply replace_str_empty. reflexivity.
  - cbn [forallb] in H. apply andb_true_iff in H. destruct H as [Hp H].
    apply negb_true_iff in Hp.
    destruct paras as [|q paras].
    + cbn [join]. now apply blank_identity.
    + change (join (LF ++ LF) (p :: q :: paras))
        with (p ++ (LF ++ LF) ++ join (LF ++ LF) (q :: paras)).
      change (join "</p><p>" (p :: q :: paras))
        with (p ++ "</p><p>" ++ join "</p><p>" (q :: paras)).
      rewrite (blank_break p _ before Hp), (IH _ H). reflexivity.
Qed.

(** *** Lines that are not bullets *)

Lemma plain_line_parts (s : string) :
  plain_line s = true ->
  occurs "*" s = false /\ occurs "010" s = false /\ occurs "013" s = false /\
  one_line s = true.
Proof.
  unfold plain_line, one_line. intros H.
  apply andb_true_iff in H. destruct H as [H Hr].
  apply andb_true_iff in H. destruct H as [Hs Hl].
  rewrite Hl, Hr. apply negb_true_iff in Hs, Hl, Hr. auto.
Qed.

(** Inside a line there is no line start. *)
Lemma no_dash_inside (p tail : string) (b : ascii) (v : bool) :
  one_line p = true -> RegExp.line_terminator b = false ->
  (forall b', no_dash_at_line_start (Some b') tail = v) ->
  no_dash_at_line_start (Some b) (p ++ tail) = v.
Proof.
  intros Hp Hb Htail. revert b Hb. induction p as [|c p IH]; intros b Hb.
  - apply Htail.
  - unfold one_line in Hp. cbn [occurs] in Hp. rewrite !negb_orb in Hp.
    apply andb_true_iff in Hp. destruct Hp as [Hl Hr].
    apply andb_true_iff in Hl. destruct Hl as [Hcl Hl].
    apply andb_true_iff in Hr. destruct Hr as [Hcr Hr].
    cbn [append no_dash_at_line_start RegExp.at_line_start RegExp.start_at RegExp.prev].
    rewrite Hb. cbn [andb negb].
    apply IH.
    + unfold one_line. rewrite Hl, Hr. reflexivity.
    + unfold RegExp.line_terminator.
      apply negb_true_iff in Hcl, Hcr. rewrite Hcl, Hcr. reflexivity.
Qed.

(** A line that does not start with a dash has no dash at a line start. *)
Lemma no_dash_line (p tail : string) (before : option ascii) (v : bool) :
  one_line p = true -> Modals.startsWith p "-" = false ->
  (forall b, no_dash_at_line_start b tail = v) ->
  no_dash_at_line_start before (p ++ tail) = v.
Proof.
  intros Hp Hdash Htail. destruct p as [|c p].
  - apply Htail.
  - rewrite startsWith_char in Hdash.
    unfold one_line in Hp. cbn [occurs] in Hp. rewrite !negb_orb in Hp.
    apply andb_true_iff in Hp. destruct Hp as [Hl Hr].
    apply andb_true_iff in Hl. destruct Hl as [Hcl Hl].
    apply andb_true_iff in Hr. destruct Hr as [Hcr Hr].
    cbn [append no_dash_at_line_start].
    rewrite Hdash, andb_false_r. cbn [negb andb].
    apply no_dash_inside.
    + unfold one_line. rewrite Hl, Hr. reflexivity.
    + unfold RegExp.line_terminator.
      apply negb_true_iff in Hcl, Hcr. rewrite Hcl, Hcr. reflexivity.
    + intros b'. apply Htail.
Qed.

Lemma occurs_join (c : ascii) (sep : string) (l : list string) :
  occurs c sep = false ->
  forallb (fun x => negb (occurs c x)) l = true ->
  occurs c (join sep l) = false.
Proof.
  intros Hsep. induction l as [|x l IH]; intros H; [reflexivity|].
  cbn [forallb] in H. apply andb_true_iff in H. destruct H as [Hx H].
  apply negb_true_iff in Hx.
  destruct l as [|y l]; [exact Hx|].
  change (join sep (x :: y :: l)) with (x ++ sep ++ join sep (y :: l)).
  rewrite !occurs_append, Hx, Hsep, (IH H). reflexivity.
Qed.

Lemma forallb_map_impl {A B} (f : A -> B) (P : A -> bool) (Q : B -> bool) (l : list A) :
  (forall x, P x = true -> Q (f x) = true) ->
  forallb P l = true -> forallb Q (map f l) = true.
Proof.
  intros HPQ. induction l as [|x l IH]; cbn; [reflexivity|].
  intros H. apply andb_true_iff in H. destruct H as [Hx H].
  rewrite (HPQ x Hx), (IH H). reflexivity.
Qed.

Lemma forallb_impl {A} (P Q : A -> bool) (l : list A) :
  (forall x, P x = true -> Q x = true) ->
  forallb P l = true -> forallb Q l = true.
Proof.
  intros HPQ H. rewrite <- (map_id l). now apply forallb_map_impl with (P := P).
Qed.

Lemma startsWith_append (p s : string) : Modals.startsWith (p ++ s) p = true.
Proof.
  induction p as [|c p IH]; [destruct s; reflexivity|].
  cbn [append Modals.startsWith]. rewrite Ascii.eqb_refl. exact IH.
Qed.

Lemma startsWith_li_items (items : list string) :
  items <> []%list -> Modals.startsWith (join LF (map li_item items)) "<li>" = true.
Proof.
  destruct items as [|i [|j items]]; [congruence| |]; intros _.
  - apply (startsWith_append "<li>").
  - change (join LF (map li_item (i :: j :: items)))
      with ("<li>" ++ (i ++ "</li>") ++ LF ++ join LF (map li_item (j :: items))).
    apply (startsWith_append "<li>").
Qed.

Lemma steps_as_replace_str (s : string) :
  Modals.bold s = replace_str Modals.BOLD STRONG None s /\
  Modals.bullets s = replace_str Modals.BULLET LI None s /\
  Modals.paragraphs s = replace_str Modals.BLANK_LINE BREAK None s.
Proof. repeat split. Qed.

Ltac unfold_steps :=
  unfold Modals.finalContent, Modals.htmlContent;
  repeat match goal with
    | |- context [Modals.bold ?s] =>
        rewrite (proj1 (steps_as_replace_str s))
    | |- context [Modals.bullets ?s] =>
        rewrite (proj1 (proj2 (steps_as_replace_str s)))
    | |- context [Modals.paragraphs ?s] =>
        rewrite (proj2 (proj2 (steps_as_replace_str s)))
    end.

(** X21: a result made only of bullet lines -- each a dash, a space and an
    item of one line without a star, separated by line feeds -- is shown
    as one [<ul>] element with one [<li>] element per line; the items are
    copied as they are, markup included. *)
Theorem X21_bullet_list (items : list string) :
  items <> []%list -> forallb plain_line items = true ->
  Modals.finalContent (join LF (map dash_item items))
  = "<ul>" ++ join LF (map li_item items) ++ "</ul>".
Proof.
  intros Hne Hitems.
  unfold_steps.
  rewrite bold_identity.
  2: { apply occurs_join; [reflexivity|].
       apply forallb_map_impl with (P := plain_line); [|exact Hitems].
       intros x Hx. apply plain_line_parts in Hx. destruct Hx as (Hs & _).
       unfold dash_item. rewrite occurs_append, Hs. reflexivity. }
  rewrite (bullet_lines items None eq_refl); [|
    apply forallb_impl with (P := plain_line); [|exact Hitems];
    intros x Hx; apply plain_line_parts in Hx; tauto | exact Hne].
  rewrite (startsWith_li_items items Hne). reflexivity.
Qed.

(** X21 for a list of two items, the second with markup in it. *)
Lemma X21_witness :
  Modals.finalContent ("- one" ++ LF ++ "- <b>two</b>")
  = "<ul><li>one</li>" ++ LF ++ "<li><b>two</b></li></ul>".
Proof.
  assert (Hne : ["one"; "<b>two</b>"]%list <> []%list) by discriminate.
  exact (X21_bullet_list ["one"; "<b>two</b>"]%list Hne eq_refl).
Defined.

Lemma no_dash_join (paras : list string) (before : option ascii) :
  forallb (fun p => plain_line p && negb (Modals.startsWith p "-")) paras = true ->
  no_dash_at_line_start before (join (LF ++ LF) paras) = true.
Proof.
  revert before. induction paras as [|p paras IH]; intros before H; [reflexivity|].
  cbn [forallb] in H. apply andb_true_iff in H. destruct H as [Hp H].
  apply andb_true_iff in Hp. destruct Hp as [Hplain Hdash].
  apply plain_line_parts in Hplain. destruct Hplain as (_ & _ & _ & Hline).
  apply negb_true_iff in Hdash.
  destruct paras as [|q paras].
  - cbn [join]. rewrite <- (append_empty_r p).
    apply no_dash_line; [exact Hline | exact Hdash | reflexivity].
  - change (join (LF ++ LF) (p :: q :: paras))
      with (p ++ String "010" (String "010" (join (LF ++ LF) (q :: paras)))).
    apply no_dash_line; [exact Hline | exact Hdash |].
    intros b. cbn [no_dash_at_line_start].
    replace (Ascii.eqb "010" "-") with false by reflexivity.
    rewrite !andb_false_r. cbn [negb andb]. apply IH. exact H.
Qed.

(** X22: a result made of paragraphs separated by blank lines -- each
    paragraph one line, without a star and not starting with a dash -- is
    shown with every paragraph in its own [<p>] element, the text copied as
    it is, markup included; unless the result starts with "<li>", when it
    is put as it is inside one [<ul>] element. *)
Theorem X22_paragraphs (paras : list string) :
  forallb (fun p => plain_line p && negb (Modals.startsWith p "-")) paras = true ->
  Modals.finalContent (join (LF ++ LF) paras)
  = if Modals.startsWith (join (LF ++ LF) paras) "<li>"
    then "<ul>" ++ join (LF ++ LF) paras ++ "</ul>"
    else "<p>" ++ join "</p><p>" paras ++ "</p>".
Proof.
  intros H.
  assert (Hplain : forallb plain_line paras = true).
  { apply forallb_impl with (2 := H). intros x Hx.
    apply andb_true_iff in Hx. tauto. }
  unfold_steps.
  rewrite bold_identity.
  2: { apply occurs_join; [reflexivity|].
       apply forallb_impl with (2 := Hplain). intros x Hx.
       apply plain_line_parts in Hx. destruct Hx as (Hs & _).
       rewrite Hs. reflexivity. }
  rewrite (bullets_identity _ None (no_dash_join paras None H)).
  destruct (Modals.startsWith (join (LF ++ LF) paras) "<li>"); [reflexivity|].
  rewrite blank_paragraphs; [reflexivity|].
  apply forallb_impl with (2 := Hplain). intros x Hx.
  apply plain_line_parts in Hx. destruct Hx as (_ & Hl & _).
  rewrite Hl. reflexivity.
Qed.

(** X22 for two paragraphs, the first with a script element in it, and for
    a single line that starts with "<li>". *)
Lemma X22_witness :
  Modals.finalContent ("see <script>x</script>" ++ (LF ++ LF) ++ "second - part")
  = "<p>see <script>x</script></p><p>second - part</p>" /\
  Modals.finalContent "<li>raw" = "<ul><li>raw</ul>".
Proof.
  split.
  - exact (X22_paragraphs ["see <script>x</script>"; "second - part"]%list eq_refl).
  - exact (X22_paragraphs ["<li>raw"]%list eq_refl).
Defined.

Lemma bullets_copy_line (intro tail : string) (before : option ascii) :
  no_dash_at_line_start before intro = true ->
  replace_str Modals.BULLET LI before (intro ++ LF ++ tail)
  = intro ++ LF ++ replace_str Modals.BULLET LI (Some "010"%char) tail.
Proof.
  revert before. induction intro as [|c intro IH]; intros before H.
  - change ("" ++ LF ++ tail) with (String "010" tail).
    rewrite bullets_copy_char by (rewrite andb_false_r; reflexivity).
    reflexivity.
  - cbn [no_dash_at_line_start] in H.
    apply andb_true_iff in H. destruct H as [Hc H].
    apply negb_true_iff in Hc.
    change (String c intro ++ LF ++ tail) with (String c (intro ++ LF ++ tail)).
    rewrite (bullets_copy_char before c _ Hc), (IH _ H). reflexivity.
Qed.

Lemma occurs_li_item (item : string) :
  one_line item = true -> occurs "010" (li_item item) = false.
Proof.
  unfold one_line, li_item. intros H.
  apply andb_true_iff in H. destruct H as [Hl _]. apply negb_true_iff in Hl.
  rewrite !occurs_append, Hl. reflexivity.
Qed.

Lemma li_items_not_LF (items : list string) :
  Modals.startsWith (join LF (map li_item items)) LF = false.
Proof.
  destruct items as [|i [|j items]]; reflexivity.
Qed.

Lemma blank_li_lines (items : list string) (before : option ascii) :
  forallb one_line items = true ->
  replace_str Modals.BLANK_LINE BREAK before (join LF (map li_item items))
  = join LF (map li_item items).
Proof.
  revert before. induction items as [|i items IH]; intros before H.
  - apply replace_str_empty. reflexivity.
  - cbn [forallb] in H. apply andb_true_iff in H. destruct H as [Hi H].
    destruct items as [|j items].
    + cbn [map join]. apply blank_identity. now apply occurs_li_item.
    + change (join LF (map li_item (i :: j :: items)))
        with (li_item i ++ LF ++ join LF (map li_item (j :: items))).
      rewrite blank_copy_line;
        [now rewrite (IH _ H) | now apply occurs_li_item | apply li_items_not_LF].
Qed.

Lemma startsWith_li_line (intro tail : string) :
  Modals.startsWith intro "<li>" = false ->
  Modals.startsWith (intro ++ LF ++ tail) "<li>" = false.
Proof.
  intros H.
  destruct intro as [|c1 [|c2 [|c3 [|c4 intro]]]]; cbn [append LF Modals.startsWith] in *.
  - reflexivity.
  - destruct (Ascii.eqb "<" c1); reflexivity.
  - destruct (Ascii.eqb "<" c1), (Ascii.eqb "l" c2); reflexivity.
  - destruct (Ascii.eqb "<" c1), (Ascii.eqb "l" c2), (Ascii.eqb "i" c3); reflexivity.
  - destruct (Ascii.eqb "<" c1), (Ascii.eqb "l" c2), (Ascii.eqb "i" c3),
      (Ascii.eqb ">" c4); cbn [andb] in *; try reflexivity.
    destruct intro; discriminate H.
Qed.

(** X23: when a bulleted list follows an introduction of one line (without
    a star, not starting with a dash or with "<li>"), every bullet line
    becomes an [<li>] element but the whole is put inside one [<p>]
    element, without any [<ul>] around the items. *)
Theorem X23_list_after_introduction (intro : string) (items : list string) :
  plain_line intro = true ->
  Modals.startsWith intro "-" = false -> Modals.startsWith intro "<li>" = false ->
  items <> []%list -> forallb plain_line items = true ->
  Modals.finalContent (intro ++ LF ++ join LF (map dash_item items))
  = "<p>" ++ intro ++ LF ++ join LF (map li_item items) ++ "</p>".
Proof.
  intros Hintro Hdash Hli Hne Hitems.
  apply plain_line_parts in Hintro. destruct Hintro as (Hs & Hl & _ & Hline).
  assert (Hlines : forallb one_line items = true).
  { apply forallb_impl with (2 := Hitems). intros x Hx.
    apply plain_line_parts in Hx. tauto. }
  unfold_steps.
  rewrite bold_identity.
  2: { rewrite !occurs_append, Hs. cbn [orb LF occurs].
       apply occurs_join; [reflexivity|].
       apply forallb_map_impl with (P := plain_line); [|exact Hitems].
       intros x Hx. apply plain_line_parts in Hx. destruct Hx as (Hx & _).
       unfold dash_item. rewrite occurs_append, Hx. reflexivity. }
  rewrite bullets_copy_line.
  2: { rewrite <- (append_empty_r intro).
       apply no_dash_line; [exact Hline | exact Hdash | reflexivity]. }
  rewrite (bullet_lines items (Some "010"%char) eq_refl Hlines Hne).
  rewrite (startsWith_li_line intro _ Hli).
  rewrite blank_copy_line; [| exact Hl | apply li_items_not_LF].
  rewrite (blank_li_lines items _ Hlines).
  rewrite !append_assoc'. reflexivity.
Qed.

(** X23 for a summary with a heading line. *)
Lemma X23_witness :
  Modals.finalContent ("Key points:" ++ LF ++ "- one" ++ LF ++ "- two")
  = "<p>Key points:" ++ LF ++ "<li>one</li>" ++ LF ++ "<li>two</li></p>".
Proof.
  assert (Hne : ["one"; "two"]%list <> []%list) by discriminate.
  exact (X23_list_after_introduction "Key points:" ["one"; "two"]%list
           eq_refl eq_refl eq_refl Hne eq_refl).
Defined.

(** *** The context snippet *)

Lemma substring_whole (s : string) (n : nat) :
  String.length s <= n -> String.substring 0 n s = s.
Proof.
  revert n. induction s as [|c s IH]; intros n H.
  - destruct n; reflexivity.
  - destruct n as [|n]; [cbn in H; lia|].
    cbn. rewrite IH; [reflexivity | cbn in H; lia].
Qed.

Lemma substring_length (s : string) (n : nat) :
  String.length (String.substring 0 n s) = Nat.min n (String.length s).
Proof.
  revert n. induction s as [|c s IH]; intros n.
  - destruct n; reflexivity.
  - destruct n as [|n]; [reflexivity|]. cbn. now rewrite IH.
Qed.

Lemma substring_prefix (s : string) (n : nat) :
  exists rest, s = String.substring 0 n s ++ rest.
Proof.
  revert n. induction s as [|c s IH]; intros n.
  - exists "". destruct n; reflexivity.
  - destruct n as [|n]; [now exists (String c s)|].
    destruct (IH n) as [rest E]. exists rest. cbn. now rewrite <- E.
Qed.

(** X24: the context snippet of the two parameter modals is the selected
    text itself followed by "..." when the text has at most 100
    characters; in general it is the first 100 characters of the text
    followed by "...", so never longer than 103 characters. *)
Theorem X24_snippet (selectedText : string) :
  (String.length selectedText <= 100 ->
   Modals.snippet selectedText = selectedText ++ "...") /\
  String.length (Modals.snippet selectedText)
  = Nat.min 100 (String.length selectedText) + 3 /\
  String.length (Modals.snippet selectedText) <= 103 /\
  exists shown rest,
    selectedText = shown ++ rest /\ Modals.snippet selectedText = shown ++ "...".
Proof.
  unfold Modals.snippet.
  assert (Hlen : String.length (String.substring 0 100 selectedText ++ "...")
                 = Nat.min 100 (String.length selectedText) + 3).
  { rewrite length_append, substring_length. reflexivity. }
  split; [|split; [|split]].
  - intros H. now rewrite substring_whole.
  - exact Hlen.
  - rewrite Hlen. lia.
  - destruct (substring_prefix selectedText 100) as [rest E].
    exists (String.substring 0 100 selectedText), rest. split; [exact E | reflexivity].
Qed.

(** *** Waiting *)

(** X14: an invocation waits 0 ms in all when its first attempt succeeds,
    1000 ms when the first fails and the second succeeds, and 3000 ms when
    the first two fail, whatever the third does; so never more than
    3000 ms. *)
Theorem X14_total_delay (g : Globals) (net : Network) (text systemPrompt : string)
    (n : nat) :
  let req := request_of g text systemPrompt in
  let waited := total_delay (events (executeCloudAiTask g net text systemPrompt n)) in
  (waited <= 3000)%N /\
  waited
  = match attempt_result net req n 0, attempt_result net req n 1 with
    | Normal _, _ => 0%N
    | Throw _, Normal _ => 1000%N
    | Throw _, Throw _ => 3000%N
    end.
Proof.
  cbv zeta. unroll_task. fold (request_of g text systemPrompt).
  destruct (attempt_result net _ n 0); [split; [cbn; lia | reflexivity]|].
  destruct (attempt_result net _ n 1); [split; [cbn; lia | reflexivity]|].
  destruct (attempt_result net _ n 2); split; cbn; try lia; reflexivity.
Qed.
